(** * NEXORA SYNERGY API: a shallow embedding of [main.py] and [schemas.py]

    The backend serves seeded marketing content (services, projects, blog
    posts, testimonials) out of a document store, accepts contact messages
    and newsletter subscriptions, and exposes a diagnostics endpoint.

    Layout of the development:
    - [Py]        the Python values the handlers manipulate (dictionaries,
                  [str], truthiness, slicing);
    - [Schemas]   the pydantic models of [schemas.py] with [model_dump] and
                  request-body validation;
    - [Effects]   a small monad of store calls and exceptions, with
                  [try_except];
    - [Main]      the handlers and the route table of [main.py];
    - [Run]       the interpretation of a program against a store client;
    - [MemStore]  a document store following the specification's words;
    - the theorems, one block per property of the specification. *)

From Stdlib Require Import ZArith Ascii String List Lia.
From stdpp Require Import base option list strings gmap pretty.

Local Open Scope string_scope.
Local Open Scope list_scope.

(* ===================================================================== *)
(** * Python values *)
(* ===================================================================== *)

Module Py.

(** How the serialiser of a response model writes an object in JSON: not
    at all (it raises), as a text, or as the object itself (a number). *)
Inductive rendering : Type :=
| Unserialisable
| AsText (text : string)
| AsIs.

(** An object of a class this development does not look inside
    ([bson.ObjectId], [datetime.datetime], [float], pydantic's URL type).
    The program observes it through [str()], [repr()], its truth value and
    the way it is written in a JSON response. *)
Record pyobject := PyObject {
  str_of : string;
  repr_of : string;
  truth_of : bool;
  json_of : rendering
}.

(** The values found in a document, a request body or a response:
    [None], [bool], [int], [str], [list], [dict] (insertion ordered, as in
    Python) and objects of other classes.  A text is the UTF-8 encoding of
    its characters. *)
#[warnings="-register-all"]
Inductive value : Type :=
| VNone
| VBool (b : bool)
| VInt (z : Z)
| VStr (s : string)
| VObject (o : pyobject)
| VList (items : list value)
| VDict (entries : list (string * value)).

(** A [dict] with string keys, in insertion order. *)
Abbreviation dict := (list (string * value)).

(** [bson.ObjectId]: [str(oid)] is its hexadecimal text; no response
    model knows how to write one. *)
Definition ObjectId (hex : string) : value :=
  VObject (PyObject hex ("ObjectId('" +:+ hex +:+ "')") true Unserialisable).

(** ** Dictionary operations *)

(** [k in d], [d[k]]: the entry stored under [k], if any. *)
Fixpoint dict_lookup (k : string) (d : dict) : option value :=
  match d with
  | [] => None
  | (k', v) :: rest => if String.eqb k' k then Some v else dict_lookup k rest
  end.

(** [d.get(k)]: [None] when the key is missing. *)
Definition dict_get (d : dict) (k : string) : value :=
  match dict_lookup k d with
  | Some v => v
  | None => VNone
  end.

(** [d[k] = v]: an existing key keeps its position, a new key goes last. *)
Fixpoint dict_set (k : string) (v : value) (d : dict) : dict :=
  match d with
  | [] => [(k, v)]
  | (k', v') :: rest =>
      if String.eqb k' k then (k, v) :: rest else (k', v') :: dict_set k v rest
  end.

(** [d.pop(k, None)], for its effect on [d]: the key is gone afterwards and
    nothing is raised when it was not there. *)
Definition dict_pop (k : string) (d : dict) : dict :=
  List.filter (fun kv => negb (String.eqb (fst kv) k)) d.

(** The keys of [d], in order ([list(d)]). *)
Definition dict_keys (d : dict) : list string := List.map fst d.

(** ** Truthiness ([if x:], [x or y]) *)

Definition truthy (v : value) : bool :=
  match v with
  | VNone => false
  | VBool b => b
  | VInt z => negb (Z.eqb z 0)
  | VStr s => negb (String.eqb s "")
  | VObject o => truth_of o
  | VList l => match l with [] => false | _ => true end
  | VDict d => match d with [] => false | _ => true end
  end.

(** [if docs:] on a list. *)
Definition nonempty {A : Type} (l : list A) : bool :=
  match l with [] => false | _ :: _ => true end.

(** ** [repr] and [str] *)

Definition hex_digit (n : N) : ascii :=
  ascii_of_N (if (n <? 10)%N then 48 + n else 87 + n)%N.

(** One character of a string literal as [repr] writes it inside the quote
    [q].  The bytes of a character above 127 are kept: such a character is
    taken to be printable, and the escapes [repr] writes for the
    unprintable ones among them are not modelled. *)
Definition repr_char (q c : ascii) : string :=
  let n := N_of_ascii c in
  if (n =? 92)%N then "\\"
  else if Ascii.eqb c q then String "\" (String q "")
  else if (n =? 10)%N then "\n"
  else if (n =? 13)%N then "\r"
  else if (n =? 9)%N then "\t"
  else if ((n <? 32) || (n =? 127))%N
       then String "\" (String "x" (String (hex_digit (n / 16))
                                      (String (hex_digit (n mod 16)) "")))
  else String c "".

Fixpoint contains_char (c : ascii) (s : string) : bool :=
  match s with
  | EmptyString => false
  | String c' rest => Ascii.eqb c' c || contains_char c rest
  end.

Fixpoint repr_chars (q : ascii) (s : string) : string :=
  match s with
  | EmptyString => EmptyString
  | String c rest => repr_char q c +:+ repr_chars q rest
  end.

(** [repr(s)] for a [str]: single quotes, unless the text has a single
    quote and no double quote. *)
Definition single_quote : ascii := ascii_of_N 39.
Definition double_quote : ascii := ascii_of_N 34.

Definition repr_str (s : string) : string :=
  let q : ascii :=
    if contains_char single_quote s && negb (contains_char double_quote s)
    then double_quote else single_quote in
  String q (repr_chars q s +:+ String q "").

Fixpoint py_repr (v : value) : string :=
  match v with
  | VNone => "None"
  | VBool true => "True"
  | VBool false => "False"
  | VInt z => pretty z
  | VStr s => repr_str s
  | VObject o => repr_of o
  | VList l => "[" +:+ String.concat ", " (List.map py_repr l) +:+ "]"
  | VDict d =>
      "{" +:+ String.concat ", "
               (List.map (fun kv => repr_str (fst kv) +:+ ": " +:+ py_repr (snd kv)) d)
          +:+ "}"
  end.

(** [str(v)]. *)
Definition py_str (v : value) : string :=
  match v with
  | VStr s => s
  | VObject o => str_of o
  | _ => py_repr v
  end.

(** ** Characters of a text

    A byte of the form [10xxxxxx] continues the character begun before
    it; every other byte begins a character. *)
Definition continuation (c : ascii) : bool :=
  let n := N_of_ascii c in ((128 <=? n) && (n <? 192))%N.

(** [len(s)]: the number of characters. *)
Fixpoint py_len (s : string) : nat :=
  match s with
  | EmptyString => 0
  | String c rest => (if continuation c then 0 else 1) + py_len rest
  end.

(** [s[:n]]: the first [n] characters, each with all its bytes. *)
Fixpoint str_prefix (n : nat) (s : string) : string :=
  match s with
  | EmptyString => EmptyString
  | String c rest =>
      if continuation c then String c (str_prefix n rest)
      else match n with
           | O => EmptyString
           | S n' => String c (str_prefix n' rest)
           end
  end.

(** ** JSON serialisation of a response

    What the serialiser of a response model does with a value of a field
    typed [list] or left untyped: [None], booleans, integers and texts are
    written as they are, lists and dictionaries element by element, an
    object as its class allows.  [None] stands for the error raised on an
    object it cannot write. *)
Definition json_all (f : value -> option value) : list value -> option (list value) :=
  fix each (l : list value) : option (list value) :=
    match l with
    | [] => Some []
    | v :: rest =>
        match f v, each rest with
        | Some v', Some rest' => Some (v' :: rest')
        | _, _ => None
        end
    end.

Definition json_entries (f : value -> option value) : dict -> option dict :=
  fix each (d : dict) : option dict :=
    match d with
    | [] => Some []
    | (k, v) :: rest =>
        match f v, each rest with
        | Some v', Some rest' => Some ((k, v') :: rest')
        | _, _ => None
        end
    end.

Fixpoint to_json (v : value) : option value :=
  match v with
  | VNone | VBool _ | VInt _ | VStr _ => Some v
  | VObject o =>
      match json_of o with
      | Unserialisable => None
      | AsText text => Some (VStr text)
      | AsIs => Some v
      end
  | VList l => option_map VList (json_all to_json l)
  | VDict d => option_map VDict (json_entries to_json d)
  end.

End Py.
Export Py.

(* ===================================================================== *)
(** * [schemas.py]: the pydantic models *)
(* ===================================================================== *)

Module Schemas.

(** What [pydantic.BaseModel] gives every schema class: the dictionary of
    its fields, in declaration order. *)
Class BaseModel (A : Type) := model_dump : A -> dict.

(** A [datetime.datetime]: its [str()], its [repr()] and the ISO 8601
    text it is written as in JSON. *)
Record datetime := Datetime {
  datetime_str : string;
  datetime_repr : string;
  isoformat : string
}.

(** A validated [HttpUrl]: its text and its [repr()]. *)
Record HttpUrl := Url {
  url_text : string;
  url_repr : string
}.

Definition of_str (s : string) : value := VStr s.
Definition of_bool (b : bool) : value := VBool b.

Definition of_datetime (t : datetime) : value :=
  VObject (PyObject (datetime_str t) (datetime_repr t) true (AsText (isoformat t))).

Definition of_url (u : HttpUrl) : value :=
  VObject (PyObject (url_text u) (url_repr u) true (AsText (url_text u))).

(** An [Optional[...]] field: [None] or the value. *)
Definition of_optional {A : Type} (f : A -> value) (o : option A) : value :=
  match o with
  | Some a => f a
  | None => VNone
  end.

(** A [List[...]] field. *)
Definition of_list {A : Type} (f : A -> value) (l : list A) : value :=
  VList (List.map f l).

Module Service.
Record t := Build {
  icon : string;
  title : string;
  slug : string;
  summary : string;
  content : option string;   (* = None *)
  featured : bool            (* = False *)
}.
#[global] Instance dump : BaseModel t := fun m =>
  [ ("icon", of_str (icon m));
    ("title", of_str (title m));
    ("slug", of_str (slug m));
    ("summary", of_str (summary m));
    ("content", of_optional of_str (content m));
    ("featured", of_bool (featured m)) ].
End Service.

Module Project.
Record t := Build {
  title : string;
  slug : string;
  summary : string;
  content : option string;          (* = None *)
  images : option (list HttpUrl);   (* = None *)
  tags : option (list string);      (* = None *)
  metrics : option dict             (* = None *)
}.
#[global] Instance dump : BaseModel t := fun m =>
  [ ("title", of_str (title m));
    ("slug", of_str (slug m));
    ("summary", of_str (summary m));
    ("content", of_optional of_str (content m));
    ("images", of_optional (of_list of_url) (images m));
    ("tags", of_optional (of_list of_str) (tags m));
    ("metrics", of_optional VDict (metrics m)) ].
End Project.

Module BlogPost.
Record t := Build {
  title : string;
  slug : string;
  author : string;
  date : datetime;
  tags : option (list string);   (* = None *)
  excerpt : option string;       (* = None *)
  coverImage : option HttpUrl;   (* = None *)
  content : string
}.
#[global] Instance dump : BaseModel t := fun m =>
  [ ("title", of_str (title m));
    ("slug", of_str (slug m));
    ("author", of_str (author m));
    ("date", of_datetime (date m));
    ("tags", of_optional (of_list of_str) (tags m));
    ("excerpt", of_optional of_str (excerpt m));
    ("coverImage", of_optional of_url (coverImage m));
    ("content", of_str (content m)) ].
End BlogPost.

Module Testimonial.
Record t := Build {
  name : string;
  role : option string;      (* = None *)
  company : option string;   (* = None *)
  quote : string;
  avatar : option HttpUrl    (* = None *)
}.
#[global] Instance dump : BaseModel t := fun m =>
  [ ("name", of_str (name m));
    ("role", of_optional of_str (role m));
    ("company", of_optional of_str (company m));
    ("quote", of_str (quote m));
    ("avatar", of_optional of_url (avatar m)) ].
End Testimonial.

Module NewsletterSubscriber.
Record t := Build {
  email : string   (* EmailStr *)
}.
#[global] Instance dump : BaseModel t := fun m =>
  [ ("email", of_str (email m)) ].
End NewsletterSubscriber.

Module ContactMessage.
Record t := Build {
  name : string;
  email : string;          (* EmailStr *)
  phone : option string;   (* = None *)
  message : string
}.
#[global] Instance dump : BaseModel t := fun m =>
  [ ("name", of_str (name m));
    ("email", of_str (email m));
    ("phone", of_optional of_str (phone m));
    ("message", of_str (message m)) ].
End ContactMessage.

(** ** Validation of a request body

    What pydantic does with the parsed JSON body of a request whose
    handler takes a model: every field is checked, all violations are
    collected, and the model is built only when there is none.  A body
    that is [null] counts as missing, any other body that is not an object
    as of the wrong type.  An entry of the error list is kept as its
    [type] and [loc]; the human-readable [msg] and the echoed [input] are
    left out. *)

Inductive validated (A : Type) : Type :=
| Valid (a : A)
| Invalid (errors : list value).
Arguments Valid {A} a.
Arguments Invalid {A} errors.

Definition error_entry (type : string) (loc : list string) : value :=
  VDict [ ("type", VStr type); ("loc", VList (List.map VStr loc)) ].

(** The outcome of one field: its value, or the error entry. *)
Definition field_result (A : Type) : Type := (A + value)%type.

(** A required [str] field. *)
Definition required_str (body : dict) (field : string) : field_result string :=
  match dict_lookup field body with
  | None => inr (error_entry "missing" ["body"; field])
  | Some (VStr s) => inl s
  | Some _ => inr (error_entry "string_type" ["body"; field])
  end.

(** An [Optional[str] = None] field. *)
Definition optional_str (body : dict) (field : string) : field_result (option string) :=
  match dict_lookup field body with
  | None => inl None
  | Some VNone => inl None
  | Some (VStr s) => inl (Some s)
  | Some _ => inr (error_entry "string_type" ["body"; field])
  end.

Definition errors_of {A : Type} (r : field_result A) : list value :=
  match r with
  | inl _ => []
  | inr e => [e]
  end.

Section Email.

(** The syntax check behind [EmailStr] (the [email-validator] package):
    the normalised address, or [None] for text that is not an email
    address. *)
Variable validate_email : string -> option string.

(** A required [EmailStr] field. *)
Definition required_email (body : dict) (field : string) : field_result string :=
  match dict_lookup field body with
  | None => inr (error_entry "missing" ["body"; field])
  | Some (VStr s) =>
      match validate_email s with
      | Some normalized => inl normalized
      | None => inr (error_entry "value_error" ["body"; field])
      end
  | Some _ => inr (error_entry "string_type" ["body"; field])
  end.

Definition validate_ContactMessage (body : value) : validated ContactMessage.t :=
  match body with
  | VDict d =>
      let name := required_str d "name" in
      let email := required_email d "email" in
      let phone := optional_str d "phone" in
      let message := required_str d "message" in
      match name, email, phone, message with
      | inl n, inl e, inl p, inl m => Valid (ContactMessage.Build n e p m)
      | _, _, _, _ =>
          Invalid (errors_of name ++ errors_of email
                     ++ errors_of phone ++ errors_of message)
      end
  | VNone => Invalid [error_entry "missing" ["body"]]
  | _ => Invalid [error_entry "model_attributes_type" ["body"]]
  end.

Definition validate_NewsletterSubscriber (body : value)
  : validated NewsletterSubscriber.t :=
  match body with
  | VDict d =>
      match required_email d "email" with
      | inl e => Valid (NewsletterSubscriber.Build e)
      | inr err => Invalid [err]
      end
  | VNone => Invalid [error_entry "missing" ["body"]]
  | _ => Invalid [error_entry "model_attributes_type" ["body"]]
  end.

End Email.

End Schemas.
Export Schemas.

(* ===================================================================== *)
(** * Store calls and exceptions *)
(* ===================================================================== *)

Module Effects.

(** The exceptions that reach the handlers: an instance of [Exception] (or
    of a subclass) raised by a collaborator, known by its text [str(e)],
    and the framework's [HTTPException], which a handler raises itself.
    Both are caught by [except Exception]. *)
Inductive exn : Type :=
| Exception (text : string)
| HTTPException (status_code : Z) (detail : string).

(** [str(e)]. *)
Definition exn_str (e : exn) : string :=
  match e with
  | Exception text => text
  | HTTPException status detail => pretty status +:+ ": " +:+ detail
  end.

(** How a call ends. *)
Inductive outcome (A : Type) : Type :=
| Returned (a : A)
| Raised (e : exn).
Arguments Returned {A} a.
Arguments Raised {A} e.

(** A handler body: it returns, raises, or calls the store client of the
    [database] module and goes on with the way that call ended.
    - [Get_documents c k]      is [get_documents(c)];
    - [Create_document c d k]  is [create_document(c, model)], where [d]
      is the field dictionary of the model. *)
Inductive prog (A : Type) : Type :=
| Ret (a : A)
| Raise (e : exn)
| Get_documents (collection_name : string) (k : outcome (list dict) -> prog A)
| Create_document (collection_name : string) (data : dict)
                  (k : outcome string -> prog A).
Arguments Ret {A} a.
Arguments Raise {A} e.
Arguments Get_documents {A} collection_name k.
Arguments Create_document {A} collection_name data k.

Fixpoint bind {A B : Type} (m : prog A) (f : A -> prog B) : prog B :=
  match m with
  | Ret a => f a
  | Raise e => Raise e
  | Get_documents c k => Get_documents c (fun o => bind (k o) f)
  | Create_document c d k => Create_document c d (fun o => bind (k o) f)
  end.

Notation "x <- m ;; k" := (bind m (fun x => k))
  (at level 100, m at next level, right associativity).

(** [try: body / except Exception as e: handler e]. *)
Fixpoint try_except {A : Type} (body : prog A) (handler : exn -> prog A) : prog A :=
  match body with
  | Ret a => Ret a
  | Raise e => handler e
  | Get_documents c k => Get_documents c (fun o => try_except (k o) handler)
  | Create_document c d k => Create_document c d (fun o => try_except (k o) handler)
  end.

(** A call either hands back its result or lets the exception propagate. *)
Definition resume {A : Type} (o : outcome A) : prog A :=
  match o with
  | Returned a => Ret a
  | Raised e => Raise e
  end.

Definition get_documents (collection_name : string) : prog (list dict) :=
  Get_documents collection_name resume.

Definition create_document {M : Type} `{BaseModel M}
    (collection_name : string) (data : M) : prog string :=
  Create_document collection_name (model_dump data) resume.

(** A block of statements inside a function either executes [return v]
    or runs off its end. *)
Definition return_ (v : value) : prog (option value) := Ret (Some v).
Definition pass : prog (option value) := Ret None.

(** [block] followed by the rest of the function. *)
Definition and_then (block : prog (option value)) (rest : prog value) : prog value :=
  r <- block ;;
  match r with
  | Some v => Ret v
  | None => rest
  end.

End Effects.
Export Effects.

(* ===================================================================== *)
(** * [main.py]: handlers and routes *)
(* ===================================================================== *)

Module Main.

(** The [db] handle imported from the [database] module, as the
    diagnostics endpoint uses it: reading its [name] attribute and listing
    the collection names.  Either may raise. *)
Record Database := {
  getattr_name : outcome value;                (* getattr(db, "name", None) *)
  list_collection_names : outcome (list string)
}.

Definition read_root : value :=
  VDict [ ("message", VStr "NEXORA SYNERGY API Running") ].

Definition hello : value :=
  VDict [ ("message", VStr "Hello from the NEXORA SYNERGY backend!") ].

(** [GET /test].  [response] is updated key by key; what was written before
    an exception stays written. *)
Definition test_database (db : option Database) (getenv : string -> option string)
  : dict :=
  let response : dict :=
    [ ("backend", VStr "✅ Running");
      ("database", VStr "❌ Not Available");
      ("database_url", VNone);
      ("database_name", VNone);
      ("connection_status", VStr "Not Connected");
      ("collections", VList []) ] in
  match db with
  | Some db =>
      let response := dict_set "database" (VStr "✅ Available") response in
      let response :=
        dict_set "database_url"
          (VStr (if truthy (of_optional VStr (getenv "DATABASE_URL"))
                 then "✅ Set" else "❌ Not Set")) response in
      match getattr_name db with
      | Returned name =>
          let response :=
            dict_set "database_name"
              (if truthy name then name else VStr "❌ Unknown") response in
          let response := dict_set "connection_status" (VStr "Connected") response in
          match list_collection_names db with
          | Returned collections =>
              let response :=
                dict_set "collections"
                  (VList (List.map VStr (List.firstn 10 collections))) response in
              dict_set "database" (VStr "✅ Connected & Working") response
          | Raised e =>
              dict_set "database"
                (VStr ("⚠️  Connected but Error: " +:+ str_prefix 80 (exn_str e)))
                response
          end
      | Raised e =>
          dict_set "database"
            (VStr ("❌ Error: " +:+ str_prefix 80 (exn_str e))) response
      end
  | None =>
      dict_set "database" (VStr "⚠️  Available but not initialized") response
  end.

(** ** Seed defaults *)

Definition DEFAULT_SERVICES : list Service.t :=
  [ Service.Build "Code" "Software & Web Development" "software-web-development"
      "Custom applications, modern web platforms, and scalable architectures."
      None true;
    Service.Build "Shield" "Cybersecurity & Network Solutions" "cybersecurity-network"
      "Proactive defense, audits, and zero-trust strategies for resilient systems."
      None false;
    Service.Build "GitBranch" "Digital Transformation & IT Consultancy"
      "digital-transformation"
      "Roadmaps, process automation, and change management for enterprise evolution."
      None false;
    Service.Build "Cloud" "Cloud Services" "cloud-services"
      "Cloud-native design, infrastructure as code, and cost optimization."
      None false;
    Service.Build "LineChart" "Data & Analytics" "data-analytics"
      "Dashboards, ML pipelines, and insights that move the business."
      None false ].

Definition DEFAULT_PROJECTS : list Project.t :=
  [ Project.Build "Nebula Commerce Platform" "nebula-commerce"
      "Composable eCommerce with sub-second TTFB and 99.99% uptime."
      None None (Some ["Next.js"; "Edge"; "MongoDB"]) None;
    Project.Build "Aegis SOC Automation" "aegis-soc"
      "SOAR workflows cutting incident response time by 68%."
      None None (Some ["Python"; "SIEM"; "Playbooks"]) None;
    Project.Build "Stratus Cloud Migration" "stratus-migration"
      "Multi-cloud migration with 32% cost reduction."
      None None (Some ["Kubernetes"; "IaC"; "GCP/AWS"]) None ].

(** [utcnow] is the value of [datetime.utcnow()] when the module was
    imported. *)
Definition DEFAULT_POSTS (utcnow : datetime) : list BlogPost.t :=
  [ BlogPost.Build "Designing for Velocity and Safety" "velocity-and-safety"
      "NEXORA Team" utcnow (Some ["Architecture"; "DX"])
      (Some "How we deliver fast without compromising security.")
      None
      "We balance platform engineering, guardrails, and automation to ship safely." ].

(** [class ListResponse(BaseModel)] with its one field [items: list], as
    the response model of the content endpoints: what a handler returns
    must be an object with a list under [items], and what is sent is that
    list, serialised.  [None] stands for the error raised when the value
    does not validate or cannot be serialised. *)
Definition ListResponse (returned : value) : option value :=
  match returned with
  | VDict d =>
      match dict_lookup "items" d with
      | Some (VList items) =>
          option_map (fun sent => VDict [ ("items", VList sent) ])
                     (json_all to_json items)
      | _ => None
      end
  | _ => None
  end.

(** [{"items": ...}] *)
Definition items_response (items : list dict) : value :=
  VDict [ ("items", VList (List.map VDict items)) ].

(** [[m.model_dump() for m in models]] *)
Definition dump_all {M : Type} `{BaseModel M} (models : list M) : list dict :=
  List.map model_dump models.

(** The body of the loop [for d in docs] (convert ObjectId):
    [d["id"] = str(d.get("_id"))] then [d.pop("_id", None)]. *)
Definition convert_object_id (d : dict) : dict :=
  let d := dict_set "id" (VStr (py_str (dict_get d "_id"))) d in
  dict_pop "_id" d.

(** ** Content endpoints *)

Definition list_services : prog value :=
  and_then
    (try_except
       (docs <- get_documents "service" ;;
        if nonempty docs
        then return_ (items_response (List.map convert_object_id docs))
        else pass)
       (fun _ => pass))
    (Ret (items_response (dump_all DEFAULT_SERVICES))).

Definition list_projects : prog value :=
  and_then
    (try_except
       (docs <- get_documents "project" ;;
        if nonempty docs
        then return_ (items_response (List.map convert_object_id docs))
        else pass)
       (fun _ => pass))
    (Ret (items_response (dump_all DEFAULT_PROJECTS))).

Definition list_blog_posts (utcnow : datetime) : prog value :=
  and_then
    (try_except
       (docs <- get_documents "blogpost" ;;
        if nonempty docs
        then return_ (items_response (List.map convert_object_id docs))
        else pass)
       (fun _ => pass))
    (Ret (items_response (dump_all (DEFAULT_POSTS utcnow)))).

Definition create_contact (msg : ContactMessage.t) : prog value :=
  try_except
    (doc_id <- create_document "contactmessage" msg ;;
     Ret (VDict [ ("ok", VBool true); ("id", VStr doc_id) ]))
    (fun e => Raise (HTTPException 500 (exn_str e))).

Definition subscribe (payload : NewsletterSubscriber.t) : prog value :=
  try_except
    (doc_id <- create_document "newslettersubscriber" payload ;;
     Ret (VDict [ ("ok", VBool true); ("id", VStr doc_id) ]))
    (fun e => Raise (HTTPException 500 (exn_str e))).

Definition list_testimonials : prog value :=
  and_then
    (try_except
       (docs <- get_documents "testimonial" ;;
        if nonempty docs
        then return_ (items_response (List.map convert_object_id docs))
        else pass)
       (fun _ => pass))
    (let sample :=
       [ model_dump (Testimonial.Build "A. Rivera" (Some "CTO") (Some "Orbit Labs")
           "NEXORA accelerated our roadmap and hardened our security posture." None);
         model_dump (Testimonial.Build "M. Chen" (Some "Head of Data") (Some "QuantumX")
           "From pipeline reliability to dashboards, they delivered." None) ] in
     Ret (items_response sample)).

(** ** The application: what the framework does around a handler *)

Record http_response := Response { status_code : Z; body : value }.

Inductive http_method := GET | POST.

(** A request: method, path and, for [POST], the parsed JSON body. *)
Record request := Request { method : http_method; path : string; json : value }.

(** A route without a response model: a returned value is sent with status
    200, an [HTTPException] with its own status and [{"detail": ...}],
    anything else as a plain 500. *)
Definition respond (handler : prog value) : prog http_response :=
  try_except
    (v <- handler ;; Ret (Response 200 v))
    (fun e =>
       match e with
       | HTTPException status detail =>
           Ret (Response status (VDict [ ("detail", VStr detail) ]))
       | Exception _ => Ret (Response 500 (VStr "Internal Server Error"))
       end).

(** A route with [response_model=...]: the returned value goes through the
    model before it is sent, and the error of a value the model cannot
    take or write ends as a plain 500, like any other. *)
Definition respond_with (response_model : value -> option value)
    (handler : prog value) : prog http_response :=
  try_except
    (v <- handler ;;
     match response_model v with
     | Some sent => Ret (Response 200 sent)
     | None => Ret (Response 500 (VStr "Internal Server Error"))
     end)
    (fun e =>
       match e with
       | HTTPException status detail =>
           Ret (Response status (VDict [ ("detail", VStr detail) ]))
       | Exception _ => Ret (Response 500 (VStr "Internal Server Error"))
       end).

(** A handler with a model parameter runs on the validated body; a body
    that does not validate is answered with 422 and the handler is not
    called. *)
Definition with_body {M : Type} (validate : value -> validated M)
    (handler : M -> prog value) (body : value) : prog http_response :=
  match validate body with
  | Valid m => respond (handler m)
  | Invalid errors => Ret (Response 422 (VDict [ ("detail", VList errors) ]))
  end.

Definition not_found : http_response :=
  Response 404 (VDict [ ("detail", VStr "Not Found") ]).

Definition method_not_allowed : http_response :=
  Response 405 (VDict [ ("detail", VStr "Method Not Allowed") ]).

Section App.

Variable validate_email : string -> option string.
Variable utcnow : datetime.
Variable db : option Database.
Variable getenv : string -> option string.

(** The routes [main.py] registers on [app], in its order.  The pages the
    framework serves on its own ([/docs], [/redoc], [/openapi.json]) and
    its redirection of a path that differs from a route by a final slash
    are not part of [main.py] and are not modelled; none of them runs a
    handler. *)
Definition routes : list (http_method * string * (value -> prog http_response)) :=
  [ (GET, "/", fun _ => respond (Ret read_root));
    (GET, "/api/hello", fun _ => respond (Ret hello));
    (GET, "/test", fun _ => respond (Ret (VDict (test_database db getenv))));
    (GET, "/api/content/services", fun _ => respond_with ListResponse list_services);
    (GET, "/api/content/projects", fun _ => respond_with ListResponse list_projects);
    (GET, "/api/blog", fun _ => respond_with ListResponse (list_blog_posts utcnow));
    (POST, "/api/contact",
      with_body (validate_ContactMessage validate_email) create_contact);
    (POST, "/api/newsletter",
      with_body (validate_NewsletterSubscriber validate_email) subscribe);
    (GET, "/api/testimonials", fun _ => respond_with ListResponse list_testimonials) ].

Definition method_eqb (a b : http_method) : bool :=
  match a, b with
  | GET, GET | POST, POST => true
  | _, _ => false
  end.

(** The first route whose path and method match; 405 when only the path
    matched some route, 404 when nothing did. *)
Fixpoint dispatch (table : list (http_method * string * (value -> prog http_response)))
    (path_seen : bool) (req : request) : prog http_response :=
  match table with
  | [] => Ret (if path_seen then method_not_allowed else not_found)
  | (m, p, endpoint) :: rest =>
      if String.eqb p (path req) then
        if method_eqb m (method req) then endpoint (json req)
        else dispatch rest true req
      else dispatch rest path_seen req
  end.

Definition app (req : request) : prog http_response := dispatch routes false req.

End App.

End Main.
Export Main.

(* ===================================================================== *)
(** * Running a handler against a store client *)
(* ===================================================================== *)

Module Run.

(** The two operations [main.py] imports from the [database] module, over
    a store state [S].  Nothing is assumed of an implementation: either
    operation may raise and may change the state. *)
Class Store (S : Type) := {
  store_get_documents : string -> S -> outcome (list dict) * S;
  store_create_document : string -> dict -> S -> outcome string * S
}.

(** The store operations a request issued, oldest first. *)
Inductive call : Type :=
| Fetch (collection_name : string)
| Insert (collection_name : string) (data : dict).

Record result (S A : Type) := Result {
  answer : outcome A;
  final : S;
  calls : list call
}.
Arguments Result {S A} answer final calls.
Arguments answer {S A} r.
Arguments final {S A} r.
Arguments calls {S A} r.

Definition logged {S A : Type} (c : call) (r : result S A) : result S A :=
  Result (answer r) (final r) (c :: calls r).

Fixpoint run {S : Type} `{Store S} {A : Type} (p : prog A) (st : S) : result S A :=
  match p with
  | Ret a => Result (Returned a) st []
  | Raise e => Result (Raised e) st []
  | Get_documents c k =>
      let (o, st') := store_get_documents c st in
      logged (Fetch c) (run (k o) st')
  | Create_document c d k =>
      let (o, st') := store_create_document c d st in
      logged (Insert c d) (run (k o) st')
  end.

End Run.
Export Run.

(* ===================================================================== *)
(** * A document store after the specification *)
(* ===================================================================== *)

Module MemStore.

(** Modelled from the spec: the [database] module ([get_documents],
    [create_document]) is not part of the sources.  The specification
    describes the store as an external database that offers "insert one
    record into named collection, return generated id" and "fetch all
    records from named collection", that may be unreachable, and whose
    records carry an internal key from which the public [id] is derived.

    [unreachable] holds the failure text while the store cannot be
    reached; [collections] maps a collection name to its records, oldest
    first; [next_key] numbers the keys handed out so far. *)
Record mem_store := {
  unreachable : option string;
  collections : gmap string (list dict);
  next_key : nat
}.

(** The records of a collection; a collection never written to is empty. *)
Definition records (st : mem_store) (c : string) : list dict :=
  default [] (collections st !! c).

(** Modelled from the spec: the text of the [n]-th generated key. *)
Definition key_text (n : nat) : string := pretty n.

(** Modelled from the spec: "fetch all records from named collection".
    The handler receives copies, the stored records are not touched. *)
Definition mem_get_documents (c : string) (st : mem_store)
  : outcome (list dict) * mem_store :=
  match unreachable st with
  | Some why => (Raised (Exception why), st)
  | None => (Returned (records st c), st)
  end.

(** Modelled from the spec: "insert one record into named collection,
    return generated id".  The record is stored under a fresh internal
    key [_id], after the records already there. *)
Definition mem_create_document (c : string) (data : dict) (st : mem_store)
  : outcome string * mem_store :=
  match unreachable st with
  | Some why => (Raised (Exception why), st)
  | None =>
      let key := key_text (next_key st) in
      let record := ("_id", ObjectId key) :: dict_pop "_id" data in
      (Returned key,
       {| unreachable := None;
          collections := <[ c := records st c ++ [record] ]> (collections st);
          next_key := S (next_key st) |})
  end.

#[global] Instance mem_store_Store : Store mem_store := {
  store_get_documents := mem_get_documents;
  store_create_document := mem_create_document
}.

(** A reachable store with nothing in it. *)
Definition empty_store : mem_store :=
  {| unreachable := None; collections := ∅; next_key := 0 |}.

(** A store that cannot be reached. *)
Definition down_store (why : string) : mem_store :=
  {| unreachable := Some why; collections := ∅; next_key := 0 |}.

End MemStore.
Export MemStore.

(* ===================================================================== *)
(** * Vocabulary of the properties *)
(* ===================================================================== *)

Module Props.

(** The four content endpoints. *)
Inductive read_endpoint := Services | Projects | Blog | Testimonials.

Definition read_path (ep : read_endpoint) : string :=
  match ep with
  | Services => "/api/content/services"
  | Projects => "/api/content/projects"
  | Blog => "/api/blog"
  | Testimonials => "/api/testimonials"
  end.

(** The collection an endpoint fetches. *)
Definition read_collection (ep : read_endpoint) : string :=
  match ep with
  | Services => "service"
  | Projects => "project"
  | Blog => "blogpost"
  | Testimonials => "testimonial"
  end.

(** The fixed records of a content kind: the field dictionaries of the
    module-level seed lists, and for testimonials those of the two samples
    written in the handler. *)
Definition fallback (utcnow : datetime) (ep : read_endpoint) : list dict :=
  match ep with
  | Services => List.map model_dump DEFAULT_SERVICES
  | Projects => List.map model_dump DEFAULT_PROJECTS
  | Blog => List.map model_dump (DEFAULT_POSTS utcnow)
  | Testimonials =>
      [ model_dump (Testimonial.Build "A. Rivera" (Some "CTO") (Some "Orbit Labs")
          "NEXORA accelerated our roadmap and hardened our security posture." None);
        model_dump (Testimonial.Build "M. Chen" (Some "Head of Data") (Some "QuantumX")
          "From pipeline reliability to dashboards, they delivered." None) ]
  end.

(** The fallback records as they are read in the JSON answer, written
    out: the seed values of [main.py], with [null] for the fields that
    were not given and the ISO text of the import time as the date of the
    post. *)
Definition service_sent (icon title slug summary : string) (featured : bool) : dict :=
  [ ("icon", VStr icon); ("title", VStr title); ("slug", VStr slug);
    ("summary", VStr summary); ("content", VNone); ("featured", VBool featured) ].

Definition project_sent (title slug summary : string) (tags : list string) : dict :=
  [ ("title", VStr title); ("slug", VStr slug); ("summary", VStr summary);
    ("content", VNone); ("images", VNone); ("tags", VList (List.map VStr tags));
    ("metrics", VNone) ].

Definition testimonial_sent (name role company quote : string) : dict :=
  [ ("name", VStr name); ("role", VStr role); ("company", VStr company);
    ("quote", VStr quote); ("avatar", VNone) ].

Definition fallback_sent (utcnow : datetime) (ep : read_endpoint) : list dict :=
  match ep with
  | Services =>
      [ service_sent "Code" "Software & Web Development" "software-web-development"
          "Custom applications, modern web platforms, and scalable architectures."
          true;
        service_sent "Shield" "Cybersecurity & Network Solutions"
          "cybersecurity-network"
          "Proactive defense, audits, and zero-trust strategies for resilient systems."
          false;
        service_sent "GitBranch" "Digital Transformation & IT Consultancy"
          "digital-transformation"
          "Roadmaps, process automation, and change management for enterprise evolution."
          false;
        service_sent "Cloud" "Cloud Services" "cloud-services"
          "Cloud-native design, infrastructure as code, and cost optimization."
          false;
        service_sent "LineChart" "Data & Analytics" "data-analytics"
          "Dashboards, ML pipelines, and insights that move the business."
          false ]
  | Projects =>
      [ project_sent "Nebula Commerce Platform" "nebula-commerce"
          "Composable eCommerce with sub-second TTFB and 99.99% uptime."
          ["Next.js"; "Edge"; "MongoDB"];
        project_sent "Aegis SOC Automation" "aegis-soc"
          "SOAR workflows cutting incident response time by 68%."
          ["Python"; "SIEM"; "Playbooks"];
        project_sent "Stratus Cloud Migration" "stratus-migration"
          "Multi-cloud migration with 32% cost reduction."
          ["Kubernetes"; "IaC"; "GCP/AWS"] ]
  | Blog =>
      [ [ ("title", VStr "Designing for Velocity and Safety");
          ("slug", VStr "velocity-and-safety");
          ("author", VStr "NEXORA Team");
          ("date", VStr (isoformat utcnow));
          ("tags", VList [ VStr "Architecture"; VStr "DX" ]);
          ("excerpt", VStr "How we deliver fast without compromising security.");
          ("coverImage", VNone);
          ("content",
            VStr "We balance platform engineering, guardrails, and automation to ship safely.") ] ]
  | Testimonials =>
      [ testimonial_sent "A. Rivera" "CTO" "Orbit Labs"
          "NEXORA accelerated our roadmap and hardened our security posture.";
        testimonial_sent "M. Chen" "Head of Data" "QuantumX"
          "From pipeline reliability to dashboards, they delivered." ]
  end.

(** The body of a content answer: [{"items": [...]}], written out. *)
Definition items_body (records : list dict) : value :=
  VDict [ ("items", VList (List.map VDict records)) ].

(** The records of a list, each serialised; [None] when one of them holds
    a value that cannot be written. *)
Definition json_records : list dict -> option (list dict) :=
  fix each (ds : list dict) : option (list dict) :=
    match ds with
    | [] => Some []
    | d :: rest =>
        match json_entries to_json d, each rest with
        | Some d', Some rest' => Some (d' :: rest')
        | _, _ => None
        end
    end.


(** The plain 500 of an error the handlers did not catch. *)
Definition internal_server_error : http_response :=
  Response 500 (VStr "Internal Server Error").

(** The two submission endpoints. *)
Inductive write_endpoint := Contact | Newsletter.

Definition write_path (ep : write_endpoint) : string :=
  match ep with
  | Contact => "/api/contact"
  | Newsletter => "/api/newsletter"
  end.

(** The collection an endpoint inserts into. *)
Definition write_collection (ep : write_endpoint) : string :=
  match ep with
  | Contact => "contactmessage"
  | Newsletter => "newslettersubscriber"
  end.

(** The record a request body validates to, as its field dictionary. *)
Definition dumped {M : Type} `{BaseModel M} (v : validated M) : validated dict :=
  match v with
  | Valid m => Valid (model_dump m)
  | Invalid errors => Invalid errors
  end.

Definition submitted (validate_email : string -> option string)
    (ep : write_endpoint) (body : value) : validated dict :=
  match ep with
  | Contact => dumped (validate_ContactMessage validate_email body)
  | Newsletter => dumped (validate_NewsletterSubscriber validate_email body)
  end.

(** [{"ok": True, "id": i}] *)
Definition ok_response (i : string) : http_response :=
  Response 200 (VDict [ ("ok", VBool true); ("id", VStr i) ]).

(** The answer of a content endpoint, from the way the fetch ended. *)
Definition read_answer (utcnow : datetime) (ep : read_endpoint)
    (o : outcome (list dict)) : http_response :=
  match o with
  | Returned (d :: ds) =>
      match json_records (List.map convert_object_id (d :: ds)) with
      | Some records => Response 200 (items_body records)
      | None => internal_server_error
      end
  | Returned [] | Raised _ => Response 200 (items_body (fallback_sent utcnow ep))
  end.

(** The answer of a submission endpoint, from the way the insert ended. *)
Definition write_answer (o : outcome string) : http_response :=
  match o with
  | Returned i => ok_response i
  | Raised e => Response 500 (VDict [ ("detail", VStr (exn_str e)) ])
  end.

(** A contact body with an email that is not an email address, or without
    one of the required fields. *)
Definition invalid_email (validate_email : string -> option string) (d : dict) : Prop :=
  exists s, dict_lookup "email" d = Some (VStr s) /\ validate_email s = None.

Definition missing_required (d : dict) : Prop :=
  dict_lookup "name" d = None \/ dict_lookup "email" d = None
  \/ dict_lookup "message" d = None.

(** The record of a document has [email] equal to [e]. *)
Definition has_email (e : string) (d : dict) : bool :=
  match dict_lookup "email" d with
  | Some (VStr s) => String.eqb s e
  | _ => false
  end.

Definition count_email (e : string) (l : list dict) : nat :=
  length (List.filter (has_email e) l).

(** What a store operation issued for [req] may be: a fetch on a [GET], or
    the insert of the validated body of a submission into its collection. *)
Definition permitted (validate_email : string -> option string)
    (req : request) (c : call) : Prop :=
  match c with
  | Fetch _ => method req = GET
  | Insert collection_name data =>
      method req = POST /\
      exists ep, path req = write_path ep
                 /\ collection_name = write_collection ep
                 /\ submitted validate_email ep (json req) = Valid data
  end.

(** ** The diagnostics sub-checks *)

(** The sub-checks of [GET /test] that consult the handle, and the field
    each one reports in. *)
Inductive sub_check := Database_name | Collections.

Definition own_field (c : sub_check) : string :=
  match c with
  | Database_name => "database_name"
  | Collections => "collections"
  end.

Definition fails (c : sub_check) (h : Database) : Prop :=
  match c with
  | Database_name => exists e, getattr_name h = Raised e
  | Collections => exists e, list_collection_names h = Raised e
  end.

(** [h'] is [h] with the sub-check [c] repaired: [c] succeeds on [h'] and
    the other sub-check is as on [h]. *)
Definition repairs (c : sub_check) (h h' : Database) : Prop :=
  match c with
  | Database_name =>
      (exists v, getattr_name h' = Returned v)
      /\ list_collection_names h' = list_collection_names h
  | Collections =>
      (exists l, list_collection_names h' = Returned l)
      /\ getattr_name h' = getattr_name h
  end.

(** Isolation as the specification words it: when a sub-check fails, every
    field but its own reads as if the sub-check had succeeded.  The status
    line [database], where the error text is written, is set aside. *)
Definition isolated (getenv : string -> option string) (c : sub_check)
    (h : Database) : Prop :=
  fails c h ->
  forall h' f, repairs c h h' -> f <> "database" -> f <> own_field c ->
    dict_lookup f (test_database (Some h) getenv)
    = dict_lookup f (test_database (Some h') getenv).

(** ** Sample inputs *)

Definition sample_validate_email (s : string) : option string :=
  if contains_char "@" s then Some s else None.

Definition sample_utcnow : datetime :=
  Datetime "2024-01-01 00:00:00" "datetime.datetime(2024, 1, 1, 0, 0)"
           "2024-01-01T00:00:00".

Definition sample_getenv (name : string) : option string :=
  if String.eqb name "DATABASE_URL" then Some "mongodb://localhost:27017" else None.

(** A handle whose name cannot be read while its collections can be listed. *)
Definition nameless_db : Database :=
  {| getattr_name := Raised (Exception "boom");
     list_collection_names := Returned ["service"] |}.

(** A handle that knows its name but fails to list its collections. *)
Definition unlistable_db : Database :=
  {| getattr_name := Returned (VStr "nexora");
     list_collection_names := Raised (Exception "boom") |}.

Definition healthy_db : Database :=
  {| getattr_name := Returned (VStr "nexora");
     list_collection_names := Returned ["service"] |}.

(** A reachable store holding two services, the second of them without
    an internal key, and one newsletter subscriber. *)
Definition stocked_store : mem_store :=
  {| unreachable := None;
     collections :=
       <[ "service" :=
            [ [ ("_id", ObjectId "64f0c0ffee0000000000a001");
                ("title", VStr "Audits"); ("slug", VStr "audits") ];
              [ ("title", VStr "Training"); ("slug", VStr "training") ] ] ]>
       (<[ "newslettersubscriber" :=
             [ [ ("_id", ObjectId "64f0c0ffee0000000000b001");
                 ("email", VStr "ada@example.com") ] ] ]> ∅);
     next_key := 0 |}.



End Props.
Export Props.

(* ===================================================================== *)
(** * Further vocabulary *)
(* ===================================================================== *)

Module Shapes.

(** The keys a converted document has: those of the document without
    [_id], and [id], which goes last unless the document had one. *)
Definition converted_keys (keys : list string) : list string :=
  List.filter (fun k => negb (String.eqb k "_id"))
    (if List.existsb (fun k => String.eqb k "id") keys
     then keys else keys ++ ["id"]).

(** ** More sample inputs *)

Definition sample_message : ContactMessage.t :=
  ContactMessage.Build "Ada" "ada@example.com" None "hello".

(** A handle that lists twelve collections. *)
Definition crowded_db : Database :=
  {| getattr_name := Returned (VStr "nexora");
     list_collection_names :=
       Returned [ "c01"; "c02"; "c03"; "c04"; "c05"; "c06";
                  "c07"; "c08"; "c09"; "c10"; "c11"; "c12" ] |}.

(** A handle whose listing fails with a text of a hundred accented
    letters, two bytes each. *)
Definition accented_db : Database :=
  {| getattr_name := Returned (VStr "nexora");
     list_collection_names :=
       Raised (Exception (String.concat "" (List.repeat "é" 100))) |}.

(** A handle whose name is the empty text. *)
Definition anonymous_db : Database :=
  {| getattr_name := Returned (VStr "");
     list_collection_names := Returned [] |}.

End Shapes.
Export Shapes.

(* ===================================================================== *)
(** * Lemmas on dictionaries *)
(* ===================================================================== *)

Section DictLemmas.

Implicit Types (d : dict) (k : string) (v : value).

Lemma dict_lookup_set_eq k v d : dict_lookup k (dict_set k v d) = Some v.
Proof.
  induction d as [|[k' v'] rest IH]; simpl.
  - now rewrite String.eqb_refl.
  - destruct (String.eqb k' k) eqn:E; simpl.
    + now rewrite String.eqb_refl.
    + now rewrite E.
Qed.

Lemma dict_lookup_set_ne k k' v d :
  k <> k' -> dict_lookup k' (dict_set k v d) = dict_lookup k' d.
Proof.
  intros Hne. induction d as [|[k0 v0] rest IH]; simpl.
  - destruct (String.eqb_spec k k'); [contradiction | reflexivity].
  - destruct (String.eqb_spec k0 k) as [->|Hk]; simpl.
    + destruct (String.eqb_spec k k'); [contradiction | reflexivity].
    + destruct (String.eqb k0 k'); [reflexivity | exact IH].
Qed.

Lemma dict_lookup_pop_eq k d : dict_lookup k (dict_pop k d) = None.
Proof.
  unfold dict_pop. induction d as [|[k' v'] rest IH]; simpl; [reflexivity|].
  destruct (String.eqb k' k) eqn:E; simpl; [exact IH|].
  now rewrite E.
Qed.

Lemma dict_lookup_pop_ne k k' d :
  k <> k' -> dict_lookup k' (dict_pop k d) = dict_lookup k' d.
Proof.
  intros Hne. unfold dict_pop.
  induction d as [|[k0 v0] rest IH]; simpl; [reflexivity|].
  destruct (String.eqb_spec k0 k) as [->|Hk]; simpl.
  - destruct (String.eqb_spec k k'); [contradiction | exact IH].
  - destruct (String.eqb k0 k'); [reflexivity | exact IH].
Qed.

(** What the loop body of the content handlers leaves in a record. *)
Lemma convert_object_id_id d :
  dict_lookup "id" (convert_object_id d) = Some (VStr (py_str (dict_get d "_id"))).
Proof.
  unfold convert_object_id.
  rewrite dict_lookup_pop_ne by discriminate.
  apply dict_lookup_set_eq.
Qed.

Lemma convert_object_id_key d : dict_lookup "_id" (convert_object_id d) = None.
Proof. apply dict_lookup_pop_eq. Qed.


End DictLemmas.

(* ===================================================================== *)
(** * Lemmas on serialisation *)
(* ===================================================================== *)

Section JsonLemmas.

Lemma json_all_records (ds : list dict) :
  json_all to_json (List.map VDict ds) = option_map (List.map VDict) (json_records ds).
Proof.
  induction ds as [|d rest IH]; [reflexivity|].
  cbn [List.map json_all json_records to_json]. rewrite IH.
  destruct (json_entries to_json d), (json_records rest); reflexivity.
Qed.

Lemma json_records_length (ds rs : list dict) :
  json_records ds = Some rs -> length rs = length ds.
Proof.
  revert rs. induction ds as [|d rest IH]; intros rs; cbn.
  - now intros [= <-].
  - destruct (json_entries to_json d); [|discriminate].
    destruct (json_records rest) as [rest'|]; [|discriminate].
    intros [= <-]. cbn. now rewrite (IH rest').
Qed.


Lemma json_records_elements (ds rs : list dict) :
  json_records ds = Some rs ->
  Forall (fun r => exists d, In d ds /\ json_entries to_json d = Some r) rs.
Proof.
  revert rs. induction ds as [|d rest IH]; intros rs; cbn.
  - intros [= <-]. constructor.
  - destruct (json_entries to_json d) as [r|] eqn:Hd; [|discriminate].
    destruct (json_records rest) as [rest'|]; [|discriminate].
    intros [= <-]. constructor.
    + exists d. auto.
    + eapply List.Forall_impl; [|apply (IH rest' eq_refl)].
      intros r' (d' & Hin & Hr'). exists d'. auto.
Qed.

(** A field of a serialised record is the serialised field of the record. *)
Lemma json_entries_lookup (d r : dict) (k : string) :
  json_entries to_json d = Some r ->
  dict_lookup k r = dict_lookup k d ≫= to_json.
Proof.
  revert r. induction d as [|[k0 v0] rest IH]; intros r; cbn.
  - now intros [= <-].
  - destruct (to_json v0) as [v0'|] eqn:Hv; [|discriminate].
    destruct (json_entries to_json rest) as [rest'|]; [|discriminate].
    intros [= <-]. cbn [dict_lookup].
    destruct (String.eqb k0 k); [symmetry; exact Hv | now apply IH].
Qed.


(** The fixed records serialise to the records written out. *)
Lemma fallback_serialised (utcnow : datetime) (ep : read_endpoint) :
  json_records (fallback utcnow ep) = Some (fallback_sent utcnow ep).
Proof. destruct ep; reflexivity. Qed.

Lemma ListResponse_items (items : list dict) :
  ListResponse (items_response items) = option_map items_body (json_records items).
Proof.
  unfold ListResponse, items_response. cbn [dict_lookup String.eqb Ascii.eqb Bool.eqb].
  rewrite json_all_records. now destruct (json_records items).
Qed.

End JsonLemmas.

(* ===================================================================== *)
(** * What each route runs to *)
(* ===================================================================== *)

Section Routes.

Variable validate_email : string -> option string.
Variable utcnow : datetime.
Variable db : option Database.
Variable getenv : string -> option string.

Context {S : Type} `{Store S}.

Local Abbreviation app := (app validate_email utcnow db getenv).

Lemma run_read (ep : read_endpoint) (j : value) (st : S) :
  run (app (Request GET (read_path ep) j)) st
  = Result (Returned
              (read_answer utcnow ep (store_get_documents (read_collection ep) st).1))
           (store_get_documents (read_collection ep) st).2
           [Fetch (read_collection ep)].
Proof.
  destruct ep; cbn -[ListResponse items_response convert_object_id];
    match goal with
    | |- context [store_get_documents ?c st] =>
        destruct (store_get_documents c st) as [[[|d ds]|e] st']
    end;
    cbn -[ListResponse items_response convert_object_id json_records];
    rewrite ListResponse_items; try reflexivity;
    now destruct (json_records _).
Qed.

Lemma run_write (ep : write_endpoint) (body : value) (data : dict) (st : S) :
  submitted validate_email ep body = Valid data ->
  run (app (Request POST (write_path ep) body)) st
  = Result (Returned (write_answer
              (store_create_document (write_collection ep) data st).1))
           (store_create_document (write_collection ep) data st).2
           [Insert (write_collection ep) data].
Proof.
  intros Hv. destruct ep; cbn in *; unfold with_body.
  - destruct (validate_ContactMessage validate_email body) as [m|errs];
      cbn in Hv; [|discriminate].
    injection Hv as <-. cbn.
    destruct (store_create_document "contactmessage" (model_dump m) st)
      as [[i|e] st']; reflexivity.
  - destruct (validate_NewsletterSubscriber validate_email body) as [m|errs];
      cbn in Hv; [|discriminate].
    injection Hv as <-. cbn.
    destruct (store_create_document "newslettersubscriber" (model_dump m) st)
      as [[i|e] st']; reflexivity.
Qed.

Lemma run_rejected (ep : write_endpoint) (body : value) (errors : list value) :
  submitted validate_email ep body = Invalid errors ->
  app (Request POST (write_path ep) body)
  = Ret (Response 422 (VDict [ ("detail", VList errors) ])).
Proof.
  intros Hv. destruct ep; cbn in *; unfold with_body.
  - destruct (validate_ContactMessage validate_email body); cbn in Hv;
      [discriminate | now injection Hv as ->].
  - destruct (validate_NewsletterSubscriber validate_email body); cbn in Hv;
      [discriminate | now injection Hv as ->].
Qed.

End Routes.

(* ===================================================================== *)
(** * Submission endpoints *)
(* ===================================================================== *)

Section Validation.

Variable validate_email : string -> option string.

(** A contact body with a bad email or without a required field does not
    validate, and at least one violation is reported. *)
Lemma contact_body_rejected (d : dict) :
  invalid_email validate_email d \/ missing_required d ->
  exists errors,
    errors <> [] /\ validate_ContactMessage validate_email (VDict d) = Invalid errors.
Proof.
  intros Hbad.
  assert (Hfield :
    (exists e, required_str d "name" = inr e)
    \/ (exists e, required_email validate_email d "email" = inr e)
    \/ (exists e, required_str d "message" = inr e)).
  { destruct Hbad as [(s & Hs & Hv) | [Hm | [Hm | Hm]]].
    - right; left. unfold required_email. rewrite Hs, Hv. eauto.
    - left. unfold required_str. rewrite Hm. eauto.
    - right; left. unfold required_email. rewrite Hm. eauto.
    - right; right. unfold required_str. rewrite Hm. eauto. }
  unfold validate_ContactMessage.
  destruct (required_str d "name") as [n|en],
           (required_email validate_email d "email") as [e|ee],
           (optional_str d "phone") as [p|ep],
           (required_str d "message") as [m|em];
    try (eexists; split; [|reflexivity]; cbn; discriminate).
  destruct Hfield as [[? Hf] | [[? Hf] | [? Hf]]]; discriminate Hf.
Qed.

(** The field dictionary of a validated submission has no [_id]. *)
Lemma submitted_without_key (ep : write_endpoint) (body : value) (data : dict) :
  submitted validate_email ep body = Valid data -> dict_lookup "_id" data = None.
Proof.
  destruct ep; cbn.
  - destruct (validate_ContactMessage validate_email body); cbn; [|discriminate].
    now intros [= <-].
  - destruct (validate_NewsletterSubscriber validate_email body); cbn; [|discriminate].
    now intros [= <-].
Qed.


End Validation.

Section MemStoreLemmas.

Implicit Types (st : mem_store) (c : string) (data : dict).

Lemma mem_get_documents_state c st : (mem_get_documents c st).2 = st.
Proof. unfold mem_get_documents. now destruct (unreachable st). Qed.

Lemma mem_create_document_down c data st why :
  unreachable st = Some why ->
  mem_create_document c data st = (Raised (Exception why), st).
Proof. intros Hd. unfold mem_create_document. now rewrite Hd. Qed.

(** The records of every collection after an insert. *)
Lemma records_after_insert c data st c' :
  unreachable st = None ->
  records (mem_create_document c data st).2 c'
  = if decide (c = c')
    then records st c
           ++ [ ("_id", ObjectId (key_text (next_key st))) :: dict_pop "_id" data ]
    else records st c'.
Proof.
  intros Hup. unfold mem_create_document. rewrite Hup. cbn.
  unfold records at 1. cbn. rewrite lookup_insert.
  destruct (decide (c = c')) as [->|Hne]; reflexivity.
Qed.

Lemma records_after_failed_insert c data st c' :
  unreachable st <> None ->
  records (mem_create_document c data st).2 c' = records st c'.
Proof.
  intros Hd. unfold mem_create_document.
  destruct (unreachable st); [reflexivity | contradiction].
Qed.

Lemma count_email_app e (l1 l2 : list dict) :
  count_email e (l1 ++ l2) = count_email e l1 + count_email e l2.
Proof. unfold count_email. now rewrite List.filter_app, length_app. Qed.

End MemStoreLemmas.

(* ===================================================================== *)
(** * Content endpoints *)
(* ===================================================================== *)

Section ContentEndpoints.

Variable validate_email : string -> option string.
Variable utcnow : datetime.
Variable db : option Database.
Variable getenv : string -> option string.

Context {S : Type} `{Store S}.

Local Abbreviation app := (app validate_email utcnow db getenv).

(** C1.  For each of the four content endpoints: when the fetch of its
    collection returns no record, or raises, the request is answered with
    status 200 and, under [items], the fixed fallback records of that
    content kind, which are the seed records written in JSON; the failure
    does not reach the caller. *)
Theorem read_falls_back_when_empty_or_failing
    (ep : read_endpoint) (j : value) (st : S) :
  (store_get_documents (read_collection ep) st).1 = Returned []
  \/ (exists e, (store_get_documents (read_collection ep) st).1 = Raised e) ->
  answer (run (app (Request GET (read_path ep) j)) st)
  = Returned (Response 200
      (VDict [ ("items", VList (List.map VDict (fallback_sent utcnow ep))) ]))
  /\ json_all to_json (List.map VDict (fallback utcnow ep))
     = Some (List.map VDict (fallback_sent utcnow ep)).
Proof.
  intros Hfetch. split.
  - rewrite run_read. cbn [answer].
    destruct Hfetch as [-> | [e ->]]; reflexivity.
  - now rewrite json_all_records, fallback_serialised.
Qed.


(** C3.  [GET /api/content/services] against a store that has no service
    (or cannot be reached) answers with exactly five records, whose slugs
    are the five seeded ones in the order of the seed list. *)
Theorem services_seeded_when_store_empty (j : value) (st : S) :
  (store_get_documents "service" st).1 = Returned []
  \/ (exists e, (store_get_documents "service" st).1 = Raised e) ->
  exists items : list dict,
    answer (run (app (Request GET "/api/content/services" j)) st)
    = Returned (Response 200 (VDict [ ("items", VList (List.map VDict items)) ]))
    /\ length items = 5
    /\ List.map (dict_lookup "slug") items
       = [ Some (VStr "software-web-development");
           Some (VStr "cybersecurity-network");
           Some (VStr "digital-transformation");
           Some (VStr "cloud-services");
           Some (VStr "data-analytics") ].
Proof.
  intros Hfetch. exists (fallback_sent utcnow Services). split; [|split].
  - rewrite (run_read validate_email utcnow db getenv Services). cbn [answer].
    destruct Hfetch as [Hf | [e Hf]]; cbn [read_collection]; rewrite Hf;
      reflexivity.
  - reflexivity.
  - reflexivity.
Qed.


End ContentEndpoints.

Section SubmissionEndpoints.

Variable validate_email : string -> option string.
Variable utcnow : datetime.
Variable db : option Database.
Variable getenv : string -> option string.

Local Abbreviation app := (app validate_email utcnow db getenv).

(** C4.  A [POST /api/contact] whose body carries an email that is not an
    email address, or lacks a required field, is answered with the
    validation error 422 (a client error) listing the violations; the
    handler is not run and no store operation takes place, whatever the
    store. *)
Theorem contact_rejected_before_handler (d : dict) :
  invalid_email validate_email d \/ missing_required d ->
  exists resp : http_response,
    app (Request POST "/api/contact" (VDict d)) = Ret resp
    /\ status_code resp = 422%Z
    /\ (400 <= status_code resp < 500)%Z
    /\ (exists errors, errors <> [] /\ body resp = VDict [ ("detail", VList errors) ])
    /\ forall (S : Type) (client : Store S) (st : S),
         run (app (Request POST "/api/contact" (VDict d))) st
         = Result (Returned resp) st [].
Proof.
  intros Hbad.
  destruct (contact_body_rejected validate_email d Hbad) as (errors & Hne & Hv).
  assert (Happ : app (Request POST "/api/contact" (VDict d))
                 = Ret (Response 422 (VDict [ ("detail", VList errors) ]))).
  { apply (run_rejected validate_email utcnow db getenv Contact).
    unfold submitted. now rewrite Hv. }
  exists (Response 422 (VDict [ ("detail", VList errors) ])).
  split; [exact Happ|]. split; [reflexivity|]. split; [cbn; lia|]. split.
  - exists errors. split; [assumption | reflexivity].
  - intros S client st. now rewrite Happ.
Qed.

(** C5.  For both submission endpoints and a body that validates: when the
    insert raises, the request is answered with status 500 and a [detail]
    equal to the text of the exception; it is not answered with a success
    body. *)
Theorem write_failure_answers_500
    {S : Type} `{Store S} (ep : write_endpoint) (body : value) (data : dict)
    (st : S) (e : exn) :
  submitted validate_email ep body = Valid data ->
  (store_create_document (write_collection ep) data st).1 = Raised e ->
  answer (run (app (Request POST (write_path ep) body)) st)
  = Returned (Response 500 (VDict [ ("detail", VStr (exn_str e)) ]))
  /\ forall i, answer (run (app (Request POST (write_path ep) body)) st)
               <> Returned (ok_response i).
Proof.
  intros Hv Hins.
  rewrite (run_write validate_email utcnow db getenv ep body data st Hv).
  cbn [answer]. rewrite Hins. cbn. split; [reflexivity | discriminate].
Qed.

(** C6.  For both submission endpoints and a body that validates: when the
    insert returns the generated identifier [i], the answer is exactly
    [{ok: true, id: i}] with status 200, and the one store operation is the
    insert of the validated record into the endpoint's collection.  In the
    store of the specification, that record is afterwards the last one of
    the collection, under the internal key [i], and a fetch returns it. *)
Theorem write_success_persists (ep : write_endpoint) (body : value) (data : dict) :
  submitted validate_email ep body = Valid data ->
  (forall (S : Type) (client : Store S) (st : S) (i : string),
     (store_create_document (write_collection ep) data st).1 = Returned i ->
     answer (run (app (Request POST (write_path ep) body)) st)
     = Returned (ok_response i)
     /\ calls (run (app (Request POST (write_path ep) body)) st)
        = [ Insert (write_collection ep) data ])
  /\
  (forall (st : mem_store) (i : string),
     answer (run (app (Request POST (write_path ep) body)) st)
     = Returned (ok_response i) ->
     let st' := final (run (app (Request POST (write_path ep) body)) st) in
     exists record : dict,
       records st' (write_collection ep)
       = records st (write_collection ep) ++ [record]
       /\ dict_lookup "_id" record = Some (ObjectId i)
       /\ (forall k v, dict_lookup k data = Some v -> dict_lookup k record = Some v)
       /\ (store_get_documents (write_collection ep) st').1
          = Returned (records st (write_collection ep) ++ [record])).
Proof.
  intros Hv. split.
  - intros S client st i Hins.
    rewrite (run_write validate_email utcnow db getenv ep body data st Hv).
    cbn [answer calls]. now rewrite Hins.
  - intros st i.
    rewrite (run_write validate_email utcnow db getenv ep body data st Hv).
    cbn [answer final]. intros Hans.
    change (store_create_document (write_collection ep) data st)
      with (mem_create_document (write_collection ep) data st) in *.
    destruct (unreachable st) as [why|] eqn:Hup.
    { rewrite (mem_create_document_down _ _ _ _ Hup) in Hans. discriminate Hans. }
    assert (Hi : i = key_text (next_key st)).
    { unfold mem_create_document in Hans. rewrite Hup in Hans.
      cbn in Hans. now injection Hans as <-. }
    subst i.
    exists (("_id", ObjectId (key_text (next_key st))) :: dict_pop "_id" data).
    assert (Hrec := records_after_insert (write_collection ep) data st
                      (write_collection ep) Hup).
    rewrite decide_True in Hrec by reflexivity.
    repeat split.
    + exact Hrec.
    + intros k v Hk. cbn [dict_lookup].
      destruct (String.eqb_spec "_id" k) as [<-|Hne].
      * rewrite (submitted_without_key validate_email ep body data Hv) in Hk.
        discriminate Hk.
      * now rewrite dict_lookup_pop_ne.
    + cbn [store_get_documents mem_store_Store]. unfold mem_get_documents.
      unfold mem_create_document at 1. rewrite Hup. cbn [unreachable snd].
      cbn [fst]. f_equal. exact Hrec.
Qed.

(** C10.  [POST /api/newsletter] does not deduplicate: in the store of the
    specification, when the collection already holds a record with the
    submitted email and the request succeeds, one more record with that
    email is inserted, so that the collection then holds at least two. *)
Theorem newsletter_not_deduplicated
    (body : value) (payload : NewsletterSubscriber.t) (st : mem_store) (i : string) :
  validate_NewsletterSubscriber validate_email body = Valid payload ->
  1 <= count_email (NewsletterSubscriber.email payload)
         (records st "newslettersubscriber") ->
  answer (run (app (Request POST "/api/newsletter" body)) st)
  = Returned (ok_response i) ->
  let st' := final (run (app (Request POST "/api/newsletter" body)) st) in
  count_email (NewsletterSubscriber.email payload) (records st' "newslettersubscriber")
  = 1 + count_email (NewsletterSubscriber.email payload)
          (records st "newslettersubscriber")
  /\ 2 <= count_email (NewsletterSubscriber.email payload)
            (records st' "newslettersubscriber").
Proof.
  intros Hv Hcount.
  assert (Hsub : submitted validate_email Newsletter body = Valid (model_dump payload)).
  { unfold submitted. now rewrite Hv. }
  rewrite (run_write validate_email utcnow db getenv Newsletter body _ st Hsub).
  cbn [answer final write_collection]. intros Hans.
  change (store_create_document "newslettersubscriber" (model_dump payload) st)
    with (mem_create_document "newslettersubscriber" (model_dump payload) st) in *.
  destruct (unreachable st) as [why|] eqn:Hup.
  { rewrite (mem_create_document_down _ _ _ _ Hup) in Hans. discriminate Hans. }
  cbn zeta.
  rewrite (records_after_insert _ _ _ "newslettersubscriber" Hup).
  rewrite decide_True by reflexivity.
  rewrite count_email_app.
  assert (Hnew : count_email (NewsletterSubscriber.email payload)
            [ ("_id", ObjectId (key_text (next_key st)))
              :: dict_pop "_id" (model_dump payload) ] = 1).
  { unfold count_email, has_email. cbn. now rewrite String.eqb_refl. }
  rewrite Hnew. lia.
Qed.

End SubmissionEndpoints.

(* ===================================================================== *)
(** * Every route at once *)
(* ===================================================================== *)

Section AllRoutes.

Variable validate_email : string -> option string.
Variable utcnow : datetime.
Variable db : option Database.
Variable getenv : string -> option string.

Local Abbreviation app := (app validate_email utcnow db getenv).

Local Ltac next_route p :=
  cbn [dispatch path method json];
  match goal with
  | |- context [String.eqb ?lit p] => destruct (String.eqb_spec lit p) as [<-|_]
  end.

Local Ltac answered := left; eexists; reflexivity.

Local Ltac nothing_added :=
  exists []; rewrite app_nil_r;
  split; [reflexivity | split; [cbn; lia | intros Hadded; now contradiction Hadded]].

(** A request is answered on the spot (fixed answers, diagnostics,
    rejected bodies, unknown routes), or it is a [GET] of a content
    endpoint, or a [POST] of a validated body to a submission endpoint. *)
Lemma app_cases (req : request) :
  (exists resp, app req = Ret resp)
  \/ (exists ep, req = Request GET (read_path ep) (json req))
  \/ (exists ep data,
        req = Request POST (write_path ep) (json req)
        /\ submitted validate_email ep (json req) = Valid data).
Proof.
  destruct req as [m p j]. unfold Main.app, routes.
  next_route p. { destruct m; answered. }
  next_route p. { destruct m; answered. }
  next_route p. { destruct m; answered. }
  next_route p. { destruct m; [right; left; now exists Services | answered]. }
  next_route p. { destruct m; [right; left; now exists Projects | answered]. }
  next_route p. { destruct m; [right; left; now exists Blog | answered]. }
  next_route p.
  { destruct m; [answered|]. cbn. unfold with_body.
    destruct (validate_ContactMessage validate_email j) as [msg|errors] eqn:Hv;
      [|answered].
    right; right. exists Contact, (model_dump msg). split; [reflexivity|].
    unfold submitted. now rewrite Hv. }
  next_route p.
  { destruct m; [answered|]. cbn. unfold with_body.
    destruct (validate_NewsletterSubscriber validate_email j) as [msg|errors] eqn:Hv;
      [|answered].
    right; right. exists Newsletter, (model_dump msg). split; [reflexivity|].
    unfold submitted. now rewrite Hv. }
  next_route p. { destruct m; [right; left; now exists Testimonials | answered]. }
  answered.
Qed.

(** C8.  No request updates or deletes a record.  Against any store client,
    a [GET] issues nothing but fetches, and the only inserts are those of
    the validated body of a [POST] to a submission endpoint, into that
    endpoint's collection.  In the store of the specification, a [GET]
    leaves the store as it was, and a request leaves every record of every
    collection in place, adding at most one record, at the end of the
    collection of the submission endpoint it was posted to. *)
Theorem store_only_grows_by_submissions (req : request) :
  (forall (S : Type) (client : Store S) (st : S),
     Forall (permitted validate_email req) (calls (run (app req) st)))
  /\
  (forall st : mem_store,
     let st' := final (run (app req) st) in
     (method req = GET -> st' = st)
     /\ forall c : string,
          exists added : list dict,
            records st' c = records st c ++ added
            /\ length added <= 1
            /\ (added <> [] ->
                method req = POST
                /\ exists ep, path req = write_path ep /\ c = write_collection ep)).
Proof.
  destruct (app_cases req) as [[resp Hr] | [[ep Hr] | (ep & data & Hr & Hv)]].
  - (* answered without the store *)
    rewrite Hr. split.
    + intros. constructor.
    + intros st. cbn. split; [reflexivity|].
      intros c. nothing_added.
  - (* a content endpoint *)
    destruct req as [m p j]. cbn [json] in Hr. injection Hr as -> ->. split.
    + intros S client st. rewrite run_read. cbn [calls].
      constructor; [reflexivity | constructor].
    + intros st. rewrite run_read. cbn [final].
      change (store_get_documents (read_collection ep) st)
        with (mem_get_documents (read_collection ep) st).
      rewrite mem_get_documents_state. split; [reflexivity|].
      intros c. nothing_added.
  - (* a submission endpoint *)
    destruct req as [m p j]. cbn [json] in Hr, Hv. injection Hr as -> ->. split.
    + intros S client st.
      rewrite (run_write validate_email utcnow db getenv ep _ data st Hv).
      cbn [calls]. constructor; [|constructor].
      split; [reflexivity|]. now exists ep.
    + intros st.
      rewrite (run_write validate_email utcnow db getenv ep _ data st Hv).
      cbn [final].
      change (store_create_document (write_collection ep) data st)
        with (mem_create_document (write_collection ep) data st).
      split; [intros Hget; discriminate Hget|].
      intros c. destruct (unreachable st) as [why|] eqn:Hup.
      * rewrite records_after_failed_insert by congruence. nothing_added.
      * rewrite (records_after_insert _ _ _ c Hup).
        destruct (decide (write_collection ep = c)) as [<-|Hne].
        -- eexists. split; [reflexivity|]. split; [cbn; lia|].
           intros _. split; [reflexivity|]. now exists ep.
        -- nothing_added.
Qed.

(** C7, as amended.  [GET /test] never raises: whatever the handle and the
    environment, it is answered with status 200, without any store
    operation, by a dictionary with the six fields.  The listing of the
    collections is isolated: when it fails, the error text goes to the
    status line [database], [collections] stays empty, and every other
    field reads as if the listing had succeeded.  A failure before it (of
    the look-up of the database name) is caught by the outer handler: the
    error text goes to [database], and [database_name],
    [connection_status] and [collections] keep their initial values. *)
Theorem diagnostics_always_answers (j : value) :
  (forall (S : Type) (client : Store S) (st : S),
     run (app (Request GET "/test" j)) st
     = Result (Returned (Response 200 (VDict (test_database db getenv)))) st [])
  /\ dict_keys (test_database db getenv)
     = [ "backend"; "database"; "database_url"; "database_name";
         "connection_status"; "collections" ]
  /\ (forall h : Database, isolated getenv Collections h)
  /\ (forall (h : Database) (name : value) (e : exn),
        getattr_name h = Returned name ->
        list_collection_names h = Raised e ->
        dict_lookup "database" (test_database (Some h) getenv)
        = Some (VStr ("⚠️  Connected but Error: " +:+ str_prefix 80 (exn_str e)))
        /\ dict_lookup "collections" (test_database (Some h) getenv)
           = Some (VList []))
  /\ (forall (h : Database) (e : exn),
        getattr_name h = Raised e ->
        test_database (Some h) getenv
        = [ ("backend", VStr "✅ Running");
            ("database", VStr ("❌ Error: " +:+ str_prefix 80 (exn_str e)));
            ("database_url",
              VStr (if truthy (of_optional VStr (getenv "DATABASE_URL"))
                    then "✅ Set" else "❌ Not Set"));
            ("database_name", VNone);
            ("connection_status", VStr "Not Connected");
            ("collections", VList []) ]).
Proof.
  split; [|split; [|split; [|split]]].
  - intros S client st. reflexivity.
  - unfold test_database. destruct db as [h|]; [|reflexivity].
    destruct (getattr_name h) as [name|e]; [|reflexivity].
    destruct (list_collection_names h) as [l|e]; reflexivity.
  - intros h [e He] h' f [[l Hl] Hname] Hf1 Hf2. cbn in Hf2.
    unfold test_database. rewrite He, Hl, Hname.
    destruct (getattr_name h) as [name|e0]; [|reflexivity].
    rewrite !(dict_lookup_set_ne "database") by congruence.
    rewrite (dict_lookup_set_ne "collections") by congruence. reflexivity.
  - intros h name e Hname Hl. unfold test_database. rewrite Hname, Hl.
    split; [apply dict_lookup_set_eq | reflexivity].
  - intros h e He. unfold test_database. rewrite He. reflexivity.
Qed.

End AllRoutes.

(** C7, as stated, fails: with a handle whose name cannot be read, the
    sub-check of the database name is not isolated.  The collections
    would list fine, yet [collections] stays empty (and
    [connection_status] stays [Not Connected]). *)
Lemma diagnostics_name_failure_not_isolated :
  ~ isolated sample_getenv Database_name nameless_db.
Proof.
  intros Hiso.
  assert (Hfail : fails Database_name nameless_db) by (eexists; reflexivity).
  assert (Hrep : repairs Database_name nameless_db healthy_db)
    by (split; [eexists; reflexivity | reflexivity]).
  specialize (Hiso Hfail healthy_db "collections" Hrep).
  assert (Hdiff : dict_lookup "collections" (test_database (Some nameless_db) sample_getenv)
                  <> dict_lookup "collections" (test_database (Some healthy_db) sample_getenv))
    by (vm_compute; discriminate).
  apply Hdiff, Hiso; discriminate.
Qed.



(* ===================================================================== *)
(** * The theorems at sample inputs *)
(* ===================================================================== *)

Lemma read_falls_back_witness :
  answer (run (app sample_validate_email sample_utcnow None sample_getenv
                 (Request GET "/api/blog" VNone)) (down_store "no route to host"))
  = Returned (Response 200
      (VDict [ ("items",
        VList [ VDict [ ("title", VStr "Designing for Velocity and Safety");
                        ("slug", VStr "velocity-and-safety");
                        ("author", VStr "NEXORA Team");
                        ("date", VStr "2024-01-01T00:00:00");
                        ("tags", VList [ VStr "Architecture"; VStr "DX" ]);
                        ("excerpt",
                          VStr "How we deliver fast without compromising security.");
                        ("coverImage", VNone);
                        ("content",
                          VStr "We balance platform engineering, guardrails, and automation to ship safely.") ] ]) ])).
Proof.
  apply (read_falls_back_when_empty_or_failing
           sample_validate_email sample_utcnow None sample_getenv
           Blog VNone (down_store "no route to host")).
  right. exists (Exception "no route to host"). reflexivity.
Defined.


Lemma services_seeded_witness :
  exists items : list dict,
    answer (run (app sample_validate_email sample_utcnow None sample_getenv
                   (Request GET "/api/content/services" VNone)) empty_store)
    = Returned (Response 200 (VDict [ ("items", VList (List.map VDict items)) ]))
    /\ length items = 5.
Proof.
  destruct (services_seeded_when_store_empty
              sample_validate_email sample_utcnow None sample_getenv
              VNone empty_store)
    as (items & Hanswer & Hlength & _).
  - left. reflexivity.
  - exists items. split; [exact Hanswer | exact Hlength].
Defined.


Lemma contact_rejected_witness :
  exists resp : http_response,
    app sample_validate_email sample_utcnow None sample_getenv
      (Request POST "/api/contact"
         (VDict [ ("name", VStr "Ada"); ("email", VStr "not-an-address");
                  ("message", VStr "hello") ]))
    = Ret resp
    /\ status_code resp = 422%Z.
Proof.
  destruct (contact_rejected_before_handler
              sample_validate_email sample_utcnow None sample_getenv
              [ ("name", VStr "Ada"); ("email", VStr "not-an-address");
                ("message", VStr "hello") ])
    as (resp & Happ & Hstatus & _).
  - left. exists "not-an-address". split; reflexivity.
  - exists resp. split; [exact Happ | exact Hstatus].
Defined.

Lemma write_failure_witness :
  answer (run (app sample_validate_email sample_utcnow None sample_getenv
                 (Request POST "/api/newsletter"
                    (VDict [ ("email", VStr "ada@example.com") ])))
            (down_store "no route to host"))
  = Returned (Response 500 (VDict [ ("detail", VStr "no route to host") ])).
Proof.
  apply (write_failure_answers_500
           sample_validate_email sample_utcnow None sample_getenv
           Newsletter (VDict [ ("email", VStr "ada@example.com") ])
           [ ("email", VStr "ada@example.com") ]
           (down_store "no route to host") (Exception "no route to host")).
  - reflexivity.
  - reflexivity.
Defined.

Lemma write_success_witness :
  answer (run (app sample_validate_email sample_utcnow None sample_getenv
                 (Request POST "/api/contact"
                    (VDict [ ("name", VStr "Ada"); ("email", VStr "ada@example.com");
                             ("message", VStr "hello") ])))
            empty_store)
  = Returned (ok_response "0").
Proof.
  apply (write_success_persists
           sample_validate_email sample_utcnow None sample_getenv
           Contact
           (VDict [ ("name", VStr "Ada"); ("email", VStr "ada@example.com");
                    ("message", VStr "hello") ])
           [ ("name", VStr "Ada"); ("email", VStr "ada@example.com");
             ("phone", VNone); ("message", VStr "hello") ]).
  - reflexivity.
  - reflexivity.
Defined.

Lemma newsletter_not_deduplicated_witness :
  2 <= count_email "ada@example.com"
         (records
            (final (run (app sample_validate_email sample_utcnow None sample_getenv
                           (Request POST "/api/newsletter"
                              (VDict [ ("email", VStr "ada@example.com") ])))
                      stocked_store))
            "newslettersubscriber").
Proof.
  apply (newsletter_not_deduplicated
           sample_validate_email sample_utcnow None sample_getenv
           (VDict [ ("email", VStr "ada@example.com") ])
           (NewsletterSubscriber.Build "ada@example.com") stocked_store "0").
  - reflexivity.
  - vm_compute. lia.
  - vm_compute. reflexivity.
Defined.

(* ===================================================================== *)
(** * Further properties of the content endpoints *)
(* ===================================================================== *)

Section Conversion.

Implicit Types (d : dict) (k : string) (v : value).

Lemma dict_keys_set k v d :
  dict_keys (dict_set k v d)
  = if List.existsb (fun k' => String.eqb k' k) (dict_keys d)
    then dict_keys d else dict_keys d ++ [k].
Proof.
  induction d as [|[k' v'] rest IH]; cbn; [reflexivity|].
  destruct (String.eqb_spec k' k) as [->|Hne]; cbn; [reflexivity|].
  unfold dict_keys in IH. rewrite IH.
  now destruct (List.existsb _ _).
Qed.

Lemma dict_keys_pop k d :
  dict_keys (dict_pop k d)
  = List.filter (fun k' => negb (String.eqb k' k)) (dict_keys d).
Proof.
  unfold dict_pop, dict_keys.
  induction d as [|[k' v'] rest IH]; cbn; [reflexivity|].
  destruct (String.eqb k' k); cbn; now rewrite IH.
Qed.

(** X1.  The loop body keeps the fields of a document in their order,
    drops [_id], and puts [id] last, unless the document already had an
    [id], which then keeps its place. *)
Theorem convert_object_id_keys d :
  dict_keys (convert_object_id d) = converted_keys (dict_keys d).
Proof.
  unfold convert_object_id, converted_keys.
  now rewrite dict_keys_pop, dict_keys_set.
Qed.

End Conversion.

Section ContentAnswers.

Variable validate_email : string -> option string.
Variable utcnow : datetime.
Variable db : option Database.
Variable getenv : string -> option string.

Context {S : Type} `{Store S}.

Local Abbreviation app := (app validate_email utcnow db getenv).

(** The fixed records, as sent, have neither an internal key nor an [id]. *)
Lemma fallback_sent_without_keys (ep : read_endpoint) :
  Forall (fun r => dict_lookup "_id" r = None /\ dict_lookup "id" r = None)
         (fallback_sent utcnow ep).
Proof. destruct ep; repeat constructor. Qed.

(** A record sent for a fetched document is the serialised conversion of
    a document. *)
Lemma sent_record_origin (docs records : list dict) :
  json_records (List.map convert_object_id docs) = Some records ->
  Forall (fun r => exists d, json_entries to_json (convert_object_id d) = Some r)
         records.
Proof.
  intros Hjson. eapply List.Forall_impl; [|apply (json_records_elements _ _ Hjson)].
  intros r (c & Hin & Hr). apply List.in_map_iff in Hin as (d & <- & _).
  now exists d.
Qed.

(** X2.  A content endpoint never answers with an empty list: whatever the
    store does, the answer is a plain 500 or has status 200 and at least
    one record under [items]. *)
Theorem read_answer_never_empty (ep : read_endpoint) (j : value) (st : S) :
  answer (run (app (Request GET (read_path ep) j)) st)
  = Returned (Response 500 (VStr "Internal Server Error"))
  \/ exists (r : dict) (rest : list dict),
       answer (run (app (Request GET (read_path ep) j)) st)
       = Returned (Response 200
           (VDict [ ("items", VList (VDict r :: List.map VDict rest)) ])).
Proof.
  rewrite run_read. cbn [answer].
  destruct (store_get_documents (read_collection ep) st).1 as [[|d ds]|e];
    cbn [read_answer].
  - right. destruct ep; eexists _, _; reflexivity.
  - destruct (json_records (List.map convert_object_id (d :: ds)))
      as [[|r rest]|] eqn:Hjson.
    + apply json_records_length in Hjson. discriminate Hjson.
    + right. now exists r, rest.
    + now left.
  - right. destruct ep; eexists _, _; reflexivity.
Qed.

(** X3.  No record sent by a content endpoint carries the internal key
    [_id], whether the records come from the store or from the fallback. *)
Theorem read_answer_hides_internal_key
    (ep : read_endpoint) (j : value) (st : S) (sent : list value) :
  answer (run (app (Request GET (read_path ep) j)) st)
  = Returned (Response 200 (VDict [ ("items", VList sent) ])) ->
  Forall (fun v => exists r : dict, v = VDict r /\ dict_lookup "_id" r = None) sent.
Proof.
  assert (Hfb : Forall (fun v => exists r : dict, v = VDict r /\ dict_lookup "_id" r = None)
                       (List.map VDict (fallback_sent utcnow ep))).
  { apply List.Forall_map.
    eapply List.Forall_impl; [|apply fallback_sent_without_keys].
    intros r [Hr _]. now exists r. }
  rewrite run_read. cbn [answer].
  destruct (store_get_documents (read_collection ep) st).1 as [[|d ds]|e];
    cbn [read_answer].
  - now intros [= <-].
  - destruct (json_records (List.map convert_object_id (d :: ds)))
      as [records|] eqn:Hjson; [|discriminate].
    intros [= <-]. apply List.Forall_map.
    eapply List.Forall_impl; [|apply (sent_record_origin _ _ Hjson)].
    intros r (d0 & Hr). exists r. split; [reflexivity|].
    rewrite (json_entries_lookup _ _ "_id" Hr), convert_object_id_key. reflexivity.
  - now intros [= <-].
Qed.

(** X4.  The records sent by a content endpoint tell where they come from:
    when the fetch returned documents every record has a text under [id],
    and when the fallback is served no record has an [id]. *)
Theorem read_answer_id_tells_origin
    (ep : read_endpoint) (j : value) (st : S) (sent : list value) :
  answer (run (app (Request GET (read_path ep) j)) st)
  = Returned (Response 200 (VDict [ ("items", VList sent) ])) ->
  (exists d ds, (store_get_documents (read_collection ep) st).1 = Returned (d :: ds))
  /\ Forall (fun v => exists (r : dict) (text : string),
                        v = VDict r /\ dict_lookup "id" r = Some (VStr text)) sent
  \/
  (forall d ds, (store_get_documents (read_collection ep) st).1 <> Returned (d :: ds))
  /\ Forall (fun v => exists r : dict, v = VDict r /\ dict_lookup "id" r = None) sent.
Proof.
  assert (Hfb : Forall (fun v => exists r : dict, v = VDict r /\ dict_lookup "id" r = None)
                       (List.map VDict (fallback_sent utcnow ep))).
  { apply List.Forall_map.
    eapply List.Forall_impl; [|apply fallback_sent_without_keys].
    intros r [_ Hr]. now exists r. }
  rewrite run_read. cbn [answer].
  destruct (store_get_documents (read_collection ep) st).1 as [[|d ds]|e];
    cbn [read_answer].
  - intros [= <-]. right. split; [discriminate | exact Hfb].
  - destruct (json_records (List.map convert_object_id (d :: ds)))
      as [records|] eqn:Hjson; [|discriminate].
    intros [= <-]. left. split; [now exists d, ds|].
    apply List.Forall_map.
    eapply List.Forall_impl; [|apply (sent_record_origin _ _ Hjson)].
    intros r (d0 & Hr). exists r, (py_str (dict_get d0 "_id")). split; [reflexivity|].
    rewrite (json_entries_lookup _ _ "id" Hr), convert_object_id_id. reflexivity.
  - intros [= <-]. right. split; [discriminate | exact Hfb].
Qed.

End ContentAnswers.

(* ===================================================================== *)
(** * Further properties of validation *)
(* ===================================================================== *)

Section BodyValidation.

Variable validate_email : string -> option string.

(** X7.  Round trip: the field dictionary of a contact message, sent back
    as a body, validates to the same message, provided the email check
    maps its email to itself. *)
Theorem contact_dump_validates (m : ContactMessage.t) :
  validate_email (ContactMessage.email m) = Some (ContactMessage.email m) ->
  validate_ContactMessage validate_email (VDict (model_dump m)) = Valid m.
Proof.
  intros He. destruct m as [n e p msg]. cbn in He.
  unfold validate_ContactMessage, required_str, required_email, optional_str.
  cbn. rewrite He. now destruct p.
Qed.

End BodyValidation.

(* ===================================================================== *)
(** * Further properties of the application as a whole *)
(* ===================================================================== *)

Section Application.

Variable validate_email : string -> option string.
Variable utcnow : datetime.
Variable db : option Database.
Variable getenv : string -> option string.

Local Abbreviation app := (app validate_email utcnow db getenv).

Local Ltac try_route p :=
  cbn [dispatch path method json];
  match goal with
  | |- context [String.eqb ?lit p] => destruct (String.eqb_spec lit p) as [<-|_]
  end.

Local Ltac fixed_answer :=
  left; eexists; split; [reflexivity | cbn; auto 6].

(** [app_cases] with the status of the answers given on the spot: 200,
    404, 405, or 422 for a [POST]. *)
Lemma app_cases_status (req : request) :
  (exists resp,
     app req = Ret resp
     /\ (status_code resp = 200%Z \/ status_code resp = 404%Z
         \/ status_code resp = 405%Z
         \/ (status_code resp = 422%Z /\ method req = POST)))
  \/ (exists ep, req = Request GET (read_path ep) (json req))
  \/ (exists ep data,
        req = Request POST (write_path ep) (json req)
        /\ submitted validate_email ep (json req) = Valid data).
Proof.
  destruct req as [m p j]. unfold Main.app, routes.
  try_route p. { destruct m; fixed_answer. }
  try_route p. { destruct m; fixed_answer. }
  try_route p. { destruct m; fixed_answer. }
  try_route p. { destruct m; [right; left; now exists Services | fixed_answer]. }
  try_route p. { destruct m; [right; left; now exists Projects | fixed_answer]. }
  try_route p. { destruct m; [right; left; now exists Blog | fixed_answer]. }
  try_route p.
  { destruct m; [fixed_answer|]. cbn. unfold with_body.
    destruct (validate_ContactMessage validate_email j) as [msg|errors] eqn:Hv;
      [|fixed_answer].
    right; right. exists Contact, (model_dump msg). split; [reflexivity|].
    unfold submitted. now rewrite Hv. }
  try_route p.
  { destruct m; [fixed_answer|]. cbn. unfold with_body.
    destruct (validate_NewsletterSubscriber validate_email j) as [msg|errors] eqn:Hv;
      [|fixed_answer].
    right; right. exists Newsletter, (model_dump msg). split; [reflexivity|].
    unfold submitted. now rewrite Hv. }
  try_route p. { destruct m; [right; left; now exists Testimonials | fixed_answer]. }
  fixed_answer.
Qed.

(** X11.  No retry and no second look: a request issues at most one store
    operation, and a content endpoint exactly one fetch, of its own
    collection, also when it falls back. *)
Theorem at_most_one_store_operation
    {S : Type} `{Store S} (req : request) (st : S) :
  length (calls (run (app req) st)) <= 1
  /\ forall ep, req = Request GET (read_path ep) (json req) ->
       calls (run (app req) st) = [ Fetch (read_collection ep) ].
Proof.
  split.
  - destruct (app_cases_status req)
      as [(resp & Hr & _) | [[ep Hr] | (ep & data & Hr & Hv)]].
    + rewrite Hr. cbn. lia.
    + rewrite Hr, run_read. cbn. lia.
    + rewrite Hr, (run_write validate_email utcnow db getenv ep _ data st Hv).
      cbn. lia.
  - intros ep Hr. rewrite Hr, run_read. reflexivity.
Qed.

End Application.

(* ===================================================================== *)
(** * Further properties of the diagnostics *)
(* ===================================================================== *)

Section Slicing.

Lemma str_prefix_length (n : nat) (s : string) : py_len (str_prefix n s) <= n.
Proof.
  revert n. induction s as [|c s IH]; intros n; cbn; [lia|].
  destruct (continuation c) eqn:Hc; cbn; rewrite ?Hc.
  - apply IH.
  - destruct n as [|n]; cbn; rewrite ?Hc; [lia|]. specialize (IH n). lia.
Qed.

Lemma str_prefix_is_prefix (n : nat) (s : string) :
  String.prefix (str_prefix n s) s = true.
Proof.
  revert n. induction s as [|c s IH]; intros n; cbn; [reflexivity|].
  destruct (continuation c); [|destruct n as [|n]; [reflexivity|]]; cbn;
    (destruct (ascii_dec c c) as [_|Hne]; [apply IH | now contradiction Hne]).
Qed.

Lemma str_prefix_short (n : nat) (s : string) :
  py_len s <= n -> str_prefix n s = s.
Proof.
  revert n. induction s as [|c s IH]; intros n; cbn; [reflexivity|].
  destruct (continuation c); cbn; intros Hlen.
  - f_equal. now apply IH.
  - destruct n as [|n]; [lia|]. f_equal. apply IH. lia.
Qed.

End Slicing.

Section Diagnostics.

Variable getenv : string -> option string.

(** X13.  The diagnostics show the first ten collections the handle lists,
    in its order, and all of them when there are fewer: what is shown is
    the beginning of the listing, of length ten or that of the listing,
    whichever is less. *)
Theorem diagnostics_shows_first_ten
    (h : Database) (name : value) (names : list string) :
  getattr_name h = Returned name ->
  list_collection_names h = Returned names ->
  exists shown : list string,
    dict_lookup "collections" (test_database (Some h) getenv)
    = Some (VList (List.map VStr shown))
    /\ length shown = Nat.min 10 (length names)
    /\ shown `prefix_of` names.
Proof.
  intros Hname Hlist. exists (List.firstn 10 names). repeat split.
  - unfold test_database. rewrite Hname, Hlist.
    rewrite (dict_lookup_set_ne "database") by discriminate.
    apply dict_lookup_set_eq.
  - apply List.length_firstn.
  - exists (List.skipn 10 names). symmetry. apply List.firstn_skipn.
Qed.

(** X14.  An error reaches the diagnostics as a label followed by at most
    80 characters of the exception's text, its beginning; a text of 80
    characters or fewer is shown whole.  Characters are counted, not
    bytes. *)
Theorem diagnostics_error_text_is_cut (h : Database) (e : exn) :
  getattr_name h = Raised e
  \/ (exists name, getattr_name h = Returned name)
     /\ list_collection_names h = Raised e ->
  exists label shown : string,
    dict_lookup "database" (test_database (Some h) getenv)
    = Some (VStr (label +:+ shown))
    /\ (label = "❌ Error: " \/ label = "⚠️  Connected but Error: ")
    /\ py_len shown <= 80
    /\ String.prefix shown (exn_str e) = true
    /\ (py_len (exn_str e) <= 80 -> shown = exn_str e).
Proof.
  intros [Hname | [[name Hname] Hlist]].
  - exists "❌ Error: ", (str_prefix 80 (exn_str e)). repeat split.
    + unfold test_database. rewrite Hname. apply dict_lookup_set_eq.
    + now left.
    + apply str_prefix_length.
    + apply str_prefix_is_prefix.
    + apply str_prefix_short.
  - exists "⚠️  Connected but Error: ", (str_prefix 80 (exn_str e)). repeat split.
    + unfold test_database. rewrite Hname, Hlist. apply dict_lookup_set_eq.
    + now right.
    + apply str_prefix_length.
    + apply str_prefix_is_prefix.
    + apply str_prefix_short.
Qed.

(** X15.  The status line reads [Connected & Working] exactly when there
    is a handle, its name could be read and its collections could be
    listed. *)
Theorem diagnostics_working_iff (db : option Database) :
  dict_lookup "database" (test_database db getenv)
  = Some (VStr "✅ Connected & Working")
  <-> exists h name names,
        db = Some h
        /\ getattr_name h = Returned name
        /\ list_collection_names h = Returned names.
Proof.
  split.
  - unfold test_database. destruct db as [h|]; [|cbn; discriminate].
    destruct (getattr_name h) as [name|e] eqn:Hname;
      [|rewrite dict_lookup_set_eq; cbn; discriminate].
    destruct (list_collection_names h) as [names|e] eqn:Hlist;
      [|rewrite dict_lookup_set_eq; cbn; discriminate].
    intros _. now exists h, name, names.
  - intros (h & name & names & -> & Hname & Hlist).
    unfold test_database. rewrite Hname, Hlist. apply dict_lookup_set_eq.
Qed.

(** X16.  When the name of the database can be read, the diagnostics never
    show an empty or missing name: a name that is [None], empty or
    otherwise falsy is replaced by [Unknown], any other is shown as it
    is. *)
Theorem diagnostics_name_never_blank (h : Database) (name : value) :
  getattr_name h = Returned name ->
  exists shown : value,
    dict_lookup "database_name" (test_database (Some h) getenv) = Some shown
    /\ truthy shown = true
    /\ shown = (if truthy name then name else VStr "❌ Unknown").
Proof.
  intros Hname. exists (if truthy name then name else VStr "❌ Unknown").
  repeat split.
  - unfold test_database. rewrite Hname.
    destruct (list_collection_names h) as [names|e].
    + rewrite (dict_lookup_set_ne "database"), (dict_lookup_set_ne "collections"),
        (dict_lookup_set_ne "connection_status") by discriminate.
      apply dict_lookup_set_eq.
    + rewrite (dict_lookup_set_ne "database"),
        (dict_lookup_set_ne "connection_status") by discriminate.
      apply dict_lookup_set_eq.
  - destruct (truthy name) eqn:Ht; [exact Ht | reflexivity].
Qed.

End Diagnostics.

(* ===================================================================== *)
(** * The further properties at sample inputs *)
(* ===================================================================== *)

Lemma read_answer_hides_internal_key_witness :
  Forall (fun v => exists r : dict, v = VDict r /\ dict_lookup "_id" r = None)
    [ VDict [ ("title", VStr "Audits"); ("slug", VStr "audits");
              ("id", VStr "64f0c0ffee0000000000a001") ];
      VDict [ ("title", VStr "Training"); ("slug", VStr "training");
              ("id", VStr "None") ] ].
Proof.
  apply (read_answer_hides_internal_key
           sample_validate_email sample_utcnow None sample_getenv
           Services VNone stocked_store).
  vm_compute. reflexivity.
Defined.

Lemma read_answer_id_tells_origin_witness :
  (exists d ds, (store_get_documents "service" stocked_store).1 = Returned (d :: ds))
  /\ Forall (fun v => exists (r : dict) (text : string),
                        v = VDict r /\ dict_lookup "id" r = Some (VStr text))
       [ VDict [ ("title", VStr "Audits"); ("slug", VStr "audits");
                 ("id", VStr "64f0c0ffee0000000000a001") ];
         VDict [ ("title", VStr "Training"); ("slug", VStr "training");
                 ("id", VStr "None") ] ]
  \/
  (forall d ds, (store_get_documents "service" stocked_store).1 <> Returned (d :: ds))
  /\ Forall (fun v => exists r : dict, v = VDict r /\ dict_lookup "id" r = None)
       [ VDict [ ("title", VStr "Audits"); ("slug", VStr "audits");
                 ("id", VStr "64f0c0ffee0000000000a001") ];
         VDict [ ("title", VStr "Training"); ("slug", VStr "training");
                 ("id", VStr "None") ] ].
Proof.
  apply (read_answer_id_tells_origin
           sample_validate_email sample_utcnow None sample_getenv
           Services VNone stocked_store).
  vm_compute. reflexivity.
Defined.

Lemma contact_dump_validates_witness :
  validate_ContactMessage sample_validate_email (VDict (model_dump sample_message))
  = Valid sample_message.
Proof.
  apply (contact_dump_validates sample_validate_email sample_message).
  reflexivity.
Defined.

Lemma diagnostics_shows_first_ten_witness :
  exists shown : list string,
    dict_lookup "collections" (test_database (Some crowded_db) sample_getenv)
    = Some (VList (List.map VStr shown))
    /\ length shown = 10.
Proof.
  destruct (diagnostics_shows_first_ten sample_getenv crowded_db (VStr "nexora")
              [ "c01"; "c02"; "c03"; "c04"; "c05"; "c06";
                "c07"; "c08"; "c09"; "c10"; "c11"; "c12" ])
    as (shown & Hshown & Hlen & _).
  - reflexivity.
  - reflexivity.
  - exists shown. split; [exact Hshown | exact Hlen].
Defined.

Lemma diagnostics_error_text_witness :
  exists label shown : string,
    dict_lookup "database" (test_database (Some accented_db) sample_getenv)
    = Some (VStr (label +:+ shown))
    /\ py_len shown <= 80.
Proof.
  destruct (diagnostics_error_text_is_cut sample_getenv accented_db
              (Exception (String.concat "" (List.repeat "é" 100))))
    as (label & shown & Hshown & _ & Hlen & _).
  - right. split; [exists (VStr "nexora")|]; reflexivity.
  - exists label, shown. split; [exact Hshown | exact Hlen].
Defined.

Lemma diagnostics_name_witness :
  exists shown : value,
    dict_lookup "database_name" (test_database (Some anonymous_db) sample_getenv)
    = Some shown
    /\ truthy shown = true.
Proof.
  destruct (diagnostics_name_never_blank sample_getenv anonymous_db (VStr ""))
    as (shown & Hshown & Htruthy & _).
  - reflexivity.
  - exists shown. split; [exact Hshown | exact Htruthy].
Defined.
